(** * SFTP web gateway ([app.py]): a shallow embedding and its properties

    The gateway keeps one process-wide [sftp_client], a thin wrapper
    ([SFTPClient]) around a paramiko SSH connection and SFTP channel, and
    exposes one Flask route per file operation.  The wrapper's methods
    never raise: they return [True], a list, a dict, or a [str] that
    starts with ["Error:"], and the routes tell success from failure by
    looking at that value.

    Python values are modelled the way the program sees them:
    - [str] is a sequence of code points, [bytes] a sequence of octets;
    - an exception is a class (up to what the [except] clauses can
      distinguish), the name of its type and the text [str(e)];
    - paramiko, the remote server behind it and Python's own library
      functions are parameters of the development;
    - every call that goes through paramiko is recorded in a trace. *)

From Stdlib Require Import ZArith List String Ascii Bool Sumbool Lia.
From Stdlib Require Import Permutation Sorted DecimalString.
From stdpp Require Import base option list sorting gmap.
From Equations Require Import Equations.

Import ListNotations.
Local Open Scope Z_scope.

(** ** Python strings and bytes *)

Module Py.

(** A [str]: the code points of the string, in order. *)
Definition str := list Z.

(** A [bytes] object: octets, in order. *)
Definition bytes := list Z.

(** A string literal of the source (ASCII). *)
Definition lit (s : string) : str :=
List.map (fun a => Z.of_N (N_of_ascii a)) (list_ascii_of_string s).

Definition slash : Z := 47.

(** [wf_str s]: every element of [s] is a code point Python can hold. *)
Definition wf_str (s : str) : Prop := Forall (fun c => 0 <= c <= 1114111) s.

(** [bool(s)] for a [str]. *)
Definition truthy_str (s : str) : bool :=
match s with [] => false | _ => true end.

Definition str_eqb (a b : str) : bool := bool_decide (a = b).

(** [s.startswith(p)]. *)
Fixpoint startswith (s p : str) : bool :=
match p, s with
| [], _ => true
| c :: p', d :: s' => (c =? d) && startswith s' p'
| _ :: _, [] => false
end.

(** [p in s] for two [str]. *)
Fixpoint contains (s p : str) : bool :=
startswith s p ||
match s with
| [] => false
| _ :: s' => contains s' p
end.

(** [sep.join(parts)]. *)
Fixpoint join (sep : str) (parts : list str) : str :=
match parts with
| [] => []
| [p] => p
| p :: rest => p ++ sep ++ join sep rest
end.

(** [s.rstrip('/')]. *)
Fixpoint rstrip_slash (s : str) : str :=
match s with
| [] => []
| c :: s' =>
    match rstrip_slash s' with
    | [] => if c =? slash then [] else [c]
    | t => c :: t
    end
end.

(** [s.replace('//', '/')]: the occurrences are found left to right and
  do not overlap. *)
Fixpoint replace_dslash (s : str) : str :=
match s with
| c1 :: r1 =>
    match r1 with
    | c2 :: r2 =>
        if (c1 =? slash) && (c2 =? slash)
        then slash :: replace_dslash r2
        else c1 :: replace_dslash r1
    | [] => s
    end
| [] => s
end.

(** ['//' in s]. *)
Fixpoint has_dslash (s : str) : bool :=
match s with
| c1 :: r1 =>
    match r1 with
    | c2 :: _ => ((c1 =? slash) && (c2 =? slash)) || has_dslash r1
    | [] => false
    end
| [] => false
end.

End Py.
Import Py.

(** ** Path utilities *)

Lemma replace_dslash_length_le (s : str) :
  (length (replace_dslash s) <= length s)%nat.
Proof.
  remember (length s) as n eqn:Hn.
  revert s Hn. induction n as [n IH] using lt_wf_ind. intros s Hn.
  destruct s as [|c1 [|c2 r2]]; simpl in *; try lia.
  destruct ((c1 =? slash) && (c2 =? slash)); simpl.
  - pose proof (IH (length r2) ltac:(lia) r2 eq_refl). lia.
  - pose proof (IH (length (c2 :: r2)) ltac:(simpl; lia) (c2 :: r2) eq_refl).
    simpl in *. lia.
Qed.

Lemma replace_dslash_shrinks (s : str) :
  has_dslash s = true -> (length (replace_dslash s) < length s)%nat.
Proof.
  remember (length s) as n eqn:Hn.
  revert s Hn. induction n as [n IH] using lt_wf_ind. intros s Hn H.
  destruct s as [|c1 [|c2 r2]]; simpl in *; try discriminate.
  destruct ((c1 =? slash) && (c2 =? slash)) eqn:E; simpl in *.
  - pose proof (replace_dslash_length_le r2). lia.
  - pose proof (IH (length (c2 :: r2)) ltac:(simpl; lia) (c2 :: r2) eq_refl H).
    simpl in *. lia.
Qed.

(** The [while '//' in path: path = path.replace('//', '/')] loop of
    [_join_path].  Each round shortens the string, which is the reason
    the loop ends. *)
Equations? collapse_loop (path : str) : str by wf (length path) lt :=
  collapse_loop path with sumbool_of_bool (has_dslash path) := {
    | left H => collapse_loop (replace_dslash path)
    | right _ => path
  }.
Proof. apply replace_dslash_shrinks. exact H. Qed.

(** [SFTPClient._join_path]; the parts are already [str]. *)
Definition _join_path (parts : list str) : str :=
  collapse_loop (join (lit "/") parts).

Example join_path_ex1 :
  _join_path [lit "/"; lit "etc"] = lit "/etc".
Proof. reflexivity. Qed.

Example join_path_ex2 :
  _join_path [lit "/a//"; lit "///b"] = lit "/a/b".
Proof. reflexivity. Qed.

(** What the specification asks of [joinPath]: in the joined string,
    a slash that is followed by another slash is dropped, so every run
    of slashes shrinks to its last one. *)
Fixpoint squeeze_slashes (s : str) : str :=
  match s with
  | c1 :: r1 =>
      match r1 with
      | c2 :: _ =>
          if (c1 =? slash) && (c2 =? slash)
          then squeeze_slashes r1
          else c1 :: squeeze_slashes r1
      | [] => s
      end
  | [] => []
  end.

(** ** Exceptions *)

(** The classes the program's [except] clauses tell apart.  [OSError]
    and [IOError] are one class in Python 3; the first four constructors
    are subclasses of it, [AuthenticationException] is a subclass of
    paramiko's [SSHException]. *)
Inductive ExnClass : Type :=
| FileNotFoundError
| PermissionError
| FileExistsError
| TimeoutError
| OtherOSError
| AuthenticationException
| OtherSSHException
| OtherException.

Record Exn : Type := mkExn {
  exn_class : ExnClass;
  exn_type : str;       (* type(e).__name__ *)
  exn_text : str        (* str(e) *)
}.

Definition is_OSError (e : Exn) : bool :=
  match exn_class e with
  | FileNotFoundError | PermissionError | FileExistsError
  | TimeoutError | OtherOSError => true
  | _ => false
  end.

Definition is_SSHException (e : Exn) : bool :=
  match exn_class e with
  | AuthenticationException | OtherSSHException => true
  | _ => false
  end.

Inductive Outcome (A : Type) : Type :=
| Ok (a : A)
| Raise (e : Exn).
Arguments Ok {A} a.
Arguments Raise {A} e.

Definition AttributeError (obj attr : str) : Exn :=
  mkExn OtherException (lit "AttributeError")
        (lit "'" ++ obj ++ lit "' object has no attribute '" ++ attr ++ lit "'").

Definition TypeError (text : str) : Exn :=
  mkExn OtherException (lit "TypeError") text.

Definition UnicodeEncodeError : Exn :=
  mkExn OtherException (lit "UnicodeEncodeError")
        (lit "'utf-8' codec can't encode character: surrogates not allowed").

Definition UnicodeDecodeError : Exn :=
  mkExn OtherException (lit "UnicodeDecodeError")
        (lit "'utf-8' codec can't decode byte: invalid utf-8").

(** ** UTF-8 *)

Module Utf8.

(** [s.encode('utf-8')] for one code point; [None] is the
  [UnicodeEncodeError] that a surrogate (or a value that is no code
  point) gives. *)
Definition encode_cp (c : Z) : option bytes :=
if c <? 0 then None
else if c <? 128 then Some [c]
else if c <? 2048 then Some [192 + c / 64; 128 + c mod 64]
else if (55296 <=? c) && (c <=? 57343) then None
else if c <? 65536 then
  Some [224 + c / 4096; 128 + (c / 64) mod 64; 128 + c mod 64]
else if c <? 1114112 then
  Some [240 + c / 262144; 128 + (c / 4096) mod 64;
        128 + (c / 64) mod 64; 128 + c mod 64]
else None.

Fixpoint encode (s : str) : option bytes :=
match s with
| [] => Some []
| c :: s' =>
    match encode_cp c, encode s' with
    | Some b, Some bs => Some (b ++ bs)
    | _, _ => None
    end
end.

Definition is_cont (b : Z) : bool := (128 <=? b) && (b <=? 191).

(** The decoder: one element per decoded code point, [None] where an
  ill-formed sequence was met.  An error covers the longest prefix of
  a well-formed sequence (one to three bytes) and decoding resumes
  after it. *)
Fixpoint decode (bs : bytes) : list (option Z) :=
match bs with
| [] => []
| b1 :: r1 =>
    if b1 <? 128 then Some b1 :: decode r1
    else if b1 <? 194 then None :: decode r1
    else if b1 <? 224 then
      match r1 with
      | [] => [None]
      | b2 :: r2 =>
          if is_cont b2
          then Some ((b1 - 192) * 64 + (b2 - 128)) :: decode r2
          else None :: decode r1
      end
    else if b1 <? 240 then
      match r1 with
      | [] => [None]
      | b2 :: r2 =>
          if negb (is_cont b2)
             || (if b2 <? 160 then b1 =? 224 else b1 =? 237)
          then None :: decode r1
          else
            match r2 with
            | [] => [None]
            | b3 :: r3 =>
                if is_cont b3
                then Some ((b1 - 224) * 4096 + (b2 - 128) * 64
                           + (b3 - 128)) :: decode r3
                else None :: decode r2
            end
      end
    else if b1 <? 245 then
      match r1 with
      | [] => [None]
      | b2 :: r2 =>
          if negb (is_cont b2)
             || (if b2 <? 144 then b1 =? 240 else b1 =? 244)
          then None :: decode r1
          else
            match r2 with
            | [] => [None]
            | b3 :: r3 =>
                if negb (is_cont b3) then None :: decode r2
                else
                  match r3 with
                  | [] => [None]
                  | b4 :: r4 =>
                      if is_cont b4
                      then Some ((b1 - 240) * 262144 + (b2 - 128) * 4096
                                 + (b3 - 128) * 64 + (b4 - 128))
                             :: decode r4
                      else None :: decode r3
                  end
            end
      end
    else None :: decode r1
end.

(** [bs.decode('utf-8', errors='replace')]. *)
Definition decode_replace (bs : bytes) : str :=
List.map (fun o => match o with Some c => c | None => 65533 end) (decode bs).

(** [bs.decode('utf-8')]; [None] is a [UnicodeDecodeError]. *)
Definition decode_strict (bs : bytes) : option str :=
List.fold_right
  (fun o acc => match o, acc with
                | Some c, Some s => Some (c :: s)
                | _, _ => None
                end)
  (Some []) (decode bs).

End Utf8.

Example decode_replace_truncated :
  Utf8.decode_replace [104; 226; 130] = [104; 65533].
Proof. reflexivity. Qed.

Example decode_replace_overlong :
  Utf8.decode_replace [192; 128; 65] = [65533; 65533; 65].
Proof. reflexivity. Qed.

Example encode_euro : Utf8.encode [8364] = Some [226; 130; 172].
Proof. reflexivity. Qed.

(** ** Values that cross the program's interfaces *)

(** A Python value as it arrives in a JSON body or is handed to
    [write_file]. *)
#[warnings="-register-all"]
Inductive Value : Type :=
| VNone
| VBool (b : bool)
| VInt (z : Z)
| VStr (s : str)
| VBytes (b : bytes)
| VList (l : list Value)
| VDict (d : list (str * Value)).

(** [bool(v)]. *)
Definition truthy (v : Value) : bool :=
  match v with
  | VNone => false
  | VBool b => b
  | VInt z => negb (z =? 0)
  | VStr s => truthy_str s
  | VBytes b => match b with [] => false | _ => true end
  | VList l => match l with [] => false | _ => true end
  | VDict d => match d with [] => false | _ => true end
  end.

(** [type(v).__name__]. *)
Definition type_name (v : Value) : str :=
  match v with
  | VNone => lit "NoneType"
  | VBool _ => lit "bool"
  | VInt _ => lit "int"
  | VStr _ => lit "str"
  | VBytes _ => lit "bytes"
  | VList _ => lit "list"
  | VDict _ => lit "dict"
  end.

(** Lookup in a dict or in a Flask multi-dict: the first binding. *)
Fixpoint assoc {A : Type} (k : str) (d : list (str * A)) : option A :=
  match d with
  | [] => None
  | (k', v) :: d' => if str_eqb k' k then Some v else assoc k d'
  end.

(** [S_ISDIR(mode)] of the [stat] module: [(mode & 0o170000) == 0o040000]. *)
Definition S_ISDIR (mode : Z) : bool := Z.land mode 61440 =? 16384.

(** paramiko's [SFTPAttributes]; a field the server did not send is
    [None]. *)
Record SFTPAttributes : Type := mkAttr {
  filename : str;
  st_mode : option Z;
  st_size : option Z;
  st_mtime : option Z
}.

(** One entry of a listing (the dict built in [listdir]). *)
Record Item : Type := mkItem {
  name : str;
  path : str;
  is_dir : bool;
  size : option Z;
  mtime : option Z
}.

(** The dict built in [stat]. *)
Record StatInfo : Type := mkStatInfo {
  si_size : option Z;
  si_mtime : option Z;
  si_mode : option Z;
  si_is_dir : bool
}.

(** What a method of [SFTPClient] returns: [True], a [str], a list of
    entries or a dict. *)
Inductive Ret : Type :=
| RTrue
| RStr (s : str)
| RList (l : list Item)
| RDict (i : StatInfo).

(** ** Sorting as [list.sort(key=...)] does *)

Section Sort.
Context {A K : Type} (key : A -> K) (ltb : K -> K -> bool).

(** [x] is placed before the first element whose key is not smaller
    than its own. *)
Fixpoint insert_by (x : A) (l : list A) : list A :=
  match l with
  | [] => [x]
  | y :: l' =>
      if ltb (key y) (key x) then y :: insert_by x l' else x :: l
  end.

(** A stable sort: elements with equal keys keep their order. *)
Definition sort_by (l : list A) : list A := List.fold_right insert_by [] l.

(** [x] may stand before [y]: the key of [y] is not smaller. *)
Definition le_by (x y : A) : Prop := ltb (key y) (key x) = false.

(** Same key, said with the order alone. *)
Definition same_key (k : K) (y : A) : bool :=
  negb (ltb (key y) k) && negb (ltb k (key y)).

End Sort.

(** Order of [str]: by code point, the shorter string first among
    prefixes. *)
Fixpoint str_ltb (a b : str) : bool :=
  match a, b with
  | _, [] => false
  | [], _ :: _ => true
  | x :: a', y :: b' => (x <? y) || ((x =? y) && str_ltb a' b')
  end.

(** Order of the tuples [(bool, str)]: [False < True], then the strings. *)
Definition key_ltb (k1 k2 : bool * str) : bool :=
  match fst k1, fst k2 with
  | false, true => true
  | true, false => false
  | _, _ => str_ltb (snd k1) (snd k2)
  end.

(** ** paramiko and the rest of the environment *)

(** paramiko objects (an [SSHClient], an [SFTPClient] channel, an open
    [SFTPFile]) are named by handles. *)
Definition handle := nat.

Inductive OpenMode : Type := ModeRB | ModeW.

(** The gateway host's own file system, as far as the staging buffers
    need it: path to content. *)
Abbreviation LocalFS := (gmap str bytes).

(** The calls the program makes into paramiko.  [Net] is whatever state
    paramiko, the network and the remote server have; each call may
    raise and may change that state.  [sftp_put] reads a local file and
    [sftp_get] writes one. *)
Record Paramiko (Net : Type) : Type := {
  ssh_new : Net -> handle * Net;
  ssh_connect : handle -> Value -> Z -> Value -> Value -> Net -> Outcome unit * Net;
  ssh_open_sftp : handle -> Net -> Outcome handle * Net;
  ssh_close : handle -> Net -> Outcome unit * Net;
  sftp_close : handle -> Net -> Outcome unit * Net;
  sftp_listdir_attr : handle -> Value -> Net -> Outcome (list SFTPAttributes) * Net;
  sftp_open : handle -> Value -> OpenMode -> Net -> Outcome handle * Net;
  file_read : handle -> option Z -> Net -> Outcome bytes * Net;
  file_write : handle -> bytes -> Net -> Outcome unit * Net;
  file_close : handle -> Net -> Outcome unit * Net;
  sftp_mkdir : handle -> Value -> Net -> Outcome unit * Net;
  sftp_stat : handle -> Value -> Net -> Outcome SFTPAttributes * Net;
  sftp_rmdir : handle -> Value -> Net -> Outcome unit * Net;
  sftp_remove : handle -> Value -> Net -> Outcome unit * Net;
  sftp_rename : handle -> Value -> Value -> Net -> Outcome unit * Net;
  sftp_put : handle -> str -> str -> LocalFS -> Net -> Outcome unit * Net;
  sftp_get : handle -> str -> str -> LocalFS -> Net -> Outcome unit * (LocalFS * Net)
}.

Arguments ssh_new {Net}.
Arguments ssh_connect {Net}.
Arguments ssh_open_sftp {Net}.
Arguments ssh_close {Net}.
Arguments sftp_close {Net}.
Arguments sftp_listdir_attr {Net}.
Arguments sftp_open {Net}.
Arguments file_read {Net}.
Arguments file_write {Net}.
Arguments file_close {Net}.
Arguments sftp_mkdir {Net}.
Arguments sftp_stat {Net}.
Arguments sftp_rmdir {Net}.
Arguments sftp_remove {Net}.
Arguments sftp_rename {Net}.
Arguments sftp_put {Net}.
Arguments sftp_get {Net}.

(** One entry of the trace per call into paramiko. *)
Inductive Call : Type :=
| CNew
| CConnect (c : handle) (host : Value) (port : Z) (username password : Value)
| COpenSftp (c : handle)
| CSshClose (c : handle)
| CSftpClose (s : handle)
| CListdirAttr (s : handle) (p : Value)
| COpen (s : handle) (p : Value) (m : OpenMode)
| CRead (f : handle) (n : option Z)
| CWrite (f : handle) (data : bytes)
| CFileClose (f : handle)
| CMkdir (s : handle) (p : Value)
| CStat (s : handle) (p : Value)
| CRmdir (s : handle) (p : Value)
| CRemove (s : handle) (p : Value)
| CRename (s : handle) (old new : Value)
| CPut (s : handle) (local remote : str)
| CGet (s : handle) (remote local : str).

(** Library functions of Python and werkzeug that the program calls and
    that are not modelled further. *)
Record PyLib : Type := {
  lower : str -> str;               (* str.lower *)
  int_ : Value -> Outcome Z;        (* int(v) *)
  str_ : Value -> str;              (* str(v), for a v that is no str *)
  secure_filename : str -> str;     (* werkzeug.utils.secure_filename *)
  tmp_name : LocalFS -> str         (* the name tempfile picks *)
}.

(** The [SFTPClient] object. *)
Record SFTPClient : Type := mkClient {
  host : Value;
  port : Z;
  username : Value;
  password : Value;
  client : option handle;
  sftp : option handle
}.

(** The state of the process and of its surroundings. *)
Record World (Net : Type) : Type := mkWorld {
  net : Net;
  local_fs : LocalFS;
  trace : list Call;
  sftp_client : option SFTPClient     (* the global *)
}.
Arguments mkWorld {Net}.
Arguments net {Net}.
Arguments local_fs {Net}.
Arguments trace {Net}.
Arguments sftp_client {Net}.

(** ** The program *)

Section Gateway.
Context {Net : Type} (P : Paramiko Net) (L : PyLib).

(** *** Computations: state of the world, and exceptions *)

Definition M (A : Type) : Type := World Net -> Outcome A * World Net.

Definition ret {A} (a : A) : M A := fun w => (Ok a, w).

Definition raise {A} (e : Exn) : M A := fun w => (Raise e, w).

Definition bind {A B} (m : M A) (k : A -> M B) : M B :=
  fun w =>
    match m w with
    | (Ok a, w') => k a w'
    | (Raise e, w') => (Raise e, w')
    end.

(** [try: m / except Exception as e: h e]; the handler re-raises what
    its clauses do not match. *)
Definition try_except {A} (m : M A) (h : Exn -> M A) : M A :=
  fun w =>
    match m w with
    | (Ok a, w') => (Ok a, w')
    | (Raise e, w') => h e w'
    end.

(** [try: m / finally: f], also the exit of a [with] block: [f] runs
    whatever [m] did, and an exception of [f] replaces [m]'s outcome. *)
Definition finally {A} (m : M A) (f : M unit) : M A :=
  fun w =>
    match m w with
    | (r, w') =>
        match f w' with
        | (Ok _, w'') => (r, w'')
        | (Raise e, w'') => (Raise e, w'')
        end
    end.

(** [try: m / except Exception: pass]. *)
Definition suppress (m : M unit) : M unit :=
  try_except m (fun _ => ret tt).

Definition lift {A} (o : Outcome A) : M A := fun w => (o, w).

(** A call into paramiko: recorded, and run on the network state. *)
Definition call {A} (c : Call) (op : Net -> Outcome A * Net) : M A :=
  fun w =>
    match op (net w) with
    | (r, n) => (r, mkWorld n (local_fs w) (trace w ++ [c]) (sftp_client w))
    end.

Definition set_global (g : option SFTPClient) : M unit :=
  fun w => (Ok tt, mkWorld (net w) (local_fs w) (trace w) g).

Definition get_global : M (option SFTPClient) :=
  fun w => (Ok (sftp_client w), w).

(** A computation that leaves the global alone. *)
Definition keeps_global {A} (m : M A) : Prop :=
  forall w r w1, m w = (r, w1) -> sftp_client w1 = sftp_client w.

End Gateway.

Declare Scope gw_scope.
Delimit Scope gw_scope with gw.
Notation "x <- m ;; k" := (bind m (fun x => k))
  (at level 100, m at next level, right associativity) : gw_scope.
Notation "m ;;; k" := (bind m (fun _ => k))
  (at level 100, right associativity) : gw_scope.

Section Client.
Context {Net : Type} (P : Paramiko Net) (L : PyLib).
Local Open Scope gw_scope.

Local Abbreviation M := (@M Net).

(** Text of a path inside an f-string. *)
Definition fmt (v : Value) : str :=
  match v with
  | VStr s => s
  | _ => str_ L v
  end.

(** [self.sftp.attr]: an [AttributeError] when [self.sftp] is [None]. *)
Definition the_sftp (self : SFTPClient) (attr : string) : M handle :=
  match sftp self with
  | Some s => ret s
  | None => raise (AttributeError (lit "NoneType") (lit attr))
  end.

(** [statmod.S_ISDIR(st.st_mode)]; a mode that is [None] is a
    [TypeError]. *)
Definition S_ISDIR_of (mode : option Z) : Outcome bool :=
  match mode with
  | Some m => Ok (S_ISDIR m)
  | None =>
      Raise (TypeError (lit "'NoneType' object cannot be interpreted as an integer"))
  end.

(** [with self.sftp.open(path, mode) as f: body f]. *)
Definition with_open {A} (self : SFTPClient) (p : Value) (m : OpenMode)
           (body : handle -> M A) : M A :=
  s <- the_sftp self "open" ;;
  f <- call (COpen s p m) (sftp_open P s p m) ;;
  finally (body f) (call (CFileClose f) (file_close P f)).

(** [f.write(s)] of paramiko's file object: a [str] is encoded as
    UTF-8 first. *)
Definition fwrite_str (f : handle) (s : str) : M unit :=
  match Utf8.encode s with
  | Some data => call (CWrite f data) (file_write P f data)
  | None => raise UnicodeEncodeError
  end.

(** *** [SFTPClient.connect] *)

Definition connect_error (e : Exn) : str :=
  match exn_class e with
  | AuthenticationException =>
      lit "Error: Authentication failed - " ++ exn_text e
  | OtherSSHException =>
      lit "Error: SSH connection failed - " ++ exn_text e
  | TimeoutError =>
      lit "Error: Connection timeout - " ++ exn_text e
  | _ => lit "Error: " ++ exn_type e ++ lit " - " ++ exn_text e
  end.

(** Returns the value of [connect()] and the object as the call left
    it. *)
Definition connect (self : SFTPClient) : M (Ret * SFTPClient) :=
  c <- call CNew (fun n => match ssh_new P n with (h, n') => (Ok h, n') end) ;;
  let self1 := mkClient (host self) (port self) (username self)
                        (password self) (Some c) (sftp self) in
  try_except
    (call (CConnect c (host self) (port self) (username self) (password self))
          (ssh_connect P c (host self) (port self) (username self) (password self)) ;;;
     s <- call (COpenSftp c) (ssh_open_sftp P c) ;;
     ret (RTrue, mkClient (host self) (port self) (username self)
                          (password self) (Some c) (Some s)))
    (fun e => ret (RStr (connect_error e), self1)).

(** *** [SFTPClient.listdir] *)

Definition sort_key (i : Item) : bool * str :=
  (negb (is_dir i), lower L (name i)).

(** The order the specification describes: a directory stands before
    a file; two entries of the same kind stand by their names compared
    without regard to case, the name in front not being the greater. *)
Definition listed_before (a b : Item) : Prop :=
  (is_dir a = true /\ is_dir b = false)
  \/ (is_dir a = is_dir b
      /\ str_ltb (lower L (name b)) (lower L (name a)) = false).

(** Two entries tie: same kind and same name once case is ignored. *)
Definition ties_with (k : bool * str) (i : Item) : bool :=
  same_key sort_key key_ltb k i.

(** The entry the loop of [listdir] builds from one attribute record
    whose mode is present. *)
Definition entry_of (p : str) (a : SFTPAttributes) : Item :=
  mkItem (filename a) (_join_path [p; filename a])
         (match st_mode a with Some m => S_ISDIR m | None => false end)
         (st_size a) (st_mtime a).

(** The body of the [for] loop, for every entry in turn.  The
    attribute records of paramiko always have [st_size] and [st_mtime]
    (possibly [None]), so the [hasattr] tests hold. *)
Fixpoint build_items (p : str) (attrs : list SFTPAttributes)
  : Outcome (list Item) :=
  match attrs with
  | [] => Ok []
  | attr :: rest =>
      let item_path := _join_path [p; filename attr] in
      match S_ISDIR_of (st_mode attr) with
      | Raise e => Raise e
      | Ok d =>
          match build_items p rest with
          | Raise e => Raise e
          | Ok items =>
              Ok (mkItem (filename attr) item_path d
                         (st_size attr) (st_mtime attr) :: items)
          end
      end
  end.

Definition listdir (self : SFTPClient) (p : str) : M Ret :=
  try_except
    (s <- the_sftp self "listdir_attr" ;;
     attrs <- call (CListdirAttr s (VStr p)) (sftp_listdir_attr P s (VStr p)) ;;
     items <- lift (build_items p attrs) ;;
     ret (RList (sort_by sort_key key_ltb items)))
    (fun e =>
       match exn_class e with
       | FileNotFoundError => ret (RStr (lit "Error: Directory not found: " ++ p))
       | PermissionError => ret (RStr (lit "Error: Permission denied: " ++ p))
       | _ => ret (RStr (lit "Error: " ++ exn_text e))
       end).

(** *** [SFTPClient.read_file] *)

Definition read_file (self : SFTPClient) (p : str) (max_bytes : option Z)
  : M Ret :=
  try_except
    (with_open self (VStr p) ModeRB (fun f =>
       data <- call (CRead f max_bytes) (file_read P f max_bytes) ;;
       ret (RStr (Utf8.decode_replace data))))
    (fun e =>
       match exn_class e with
       | FileNotFoundError => ret (RStr (lit "Error: File not found: " ++ p))
       | PermissionError => ret (RStr (lit "Error: Permission denied: " ++ p))
       | _ => ret (RStr (lit "Error: " ++ exn_text e))
       end).

(** *** [SFTPClient.write_file] *)

(** [content.decode('utf-8')] for a content that is no [str]. *)
Definition decode_content (content : Value) : Outcome str :=
  match content with
  | VBytes b =>
      match Utf8.decode_strict b with
      | Some s => Ok s
      | None => Raise UnicodeDecodeError
      end
  | _ => Raise (AttributeError (type_name content) (lit "decode"))
  end.

Definition write_file (self : SFTPClient) (p : Value) (content : Value)
  : M Ret :=
  try_except
    (with_open self p ModeW (fun f =>
       match content with
       | VStr s => fwrite_str f s
       | _ => s <- lift (decode_content content) ;; fwrite_str f s
       end) ;;;
     ret RTrue)
    (fun e =>
       match exn_class e with
       | PermissionError => ret (RStr (lit "Error: Permission denied: " ++ fmt p))
       | _ => ret (RStr (lit "Error: " ++ exn_text e))
       end).

(** *** [SFTPClient.mkdir] *)

Definition mkdir (self : SFTPClient) (p : Value) : M Ret :=
  try_except
    (s <- the_sftp self "mkdir" ;;
     call (CMkdir s p) (sftp_mkdir P s p) ;;;
     ret RTrue)
    (fun e =>
       match exn_class e with
       | FileExistsError =>
           ret (RStr (lit "Error: Directory already exists: " ++ fmt p))
       | PermissionError => ret (RStr (lit "Error: Permission denied: " ++ fmt p))
       | _ => ret (RStr (lit "Error: " ++ exn_text e))
       end).
(** *** [SFTPClient.remove] *)

Definition remove_error (p : Value) (e : Exn) : str :=
  match exn_class e with
  | PermissionError => lit "Error: Permission denied: " ++ fmt p
  | _ =>
      if is_OSError e then
        if contains (lower L (exn_text e)) (lit "not empty")
        then lit "Error: Directory not empty: " ++ fmt p
        else lit "Error: " ++ exn_text e
      else lit "Error: " ++ exn_text e
  end.

(** The inner [try] returns early (left) or hands on the attributes
    (right). *)
Definition remove (self : SFTPClient) (p : Value) : M Ret :=
  try_except
    (r <- try_except
            (s <- the_sftp self "stat" ;;
             st <- call (CStat s p) (sftp_stat P s p) ;;
             ret (inr st))
            (fun e =>
               if is_OSError e
               then ret (inl (RStr (lit "Error: Path not found: " ++ fmt p)))
               else raise e) ;;
     match r with
     | inl early => ret early
     | inr st =>
         d <- lift (S_ISDIR_of (st_mode st)) ;;
         (if d : bool
          then s <- the_sftp self "rmdir" ;; call (CRmdir s p) (sftp_rmdir P s p)
          else s <- the_sftp self "remove" ;; call (CRemove s p) (sftp_remove P s p)) ;;;
         ret RTrue
     end)
    (fun e => ret (RStr (remove_error p e))).

(** *** [SFTPClient.rename] *)

Definition rename (self : SFTPClient) (old new : Value) : M Ret :=
  try_except
    (s <- the_sftp self "rename" ;;
     call (CRename s old new) (sftp_rename P s old new) ;;;
     ret RTrue)
    (fun e =>
       match exn_class e with
       | FileNotFoundError => ret (RStr (lit "Error: File not found: " ++ fmt old))
       | PermissionError => ret (RStr (lit "Error: Permission denied"))
       | _ => ret (RStr (lit "Error: " ++ exn_text e))
       end).

(** *** [SFTPClient.upload_local] *)

Definition upload_local (self : SFTPClient) (local_path remote_path : str)
  : M Ret :=
  try_except
    (s <- the_sftp self "put" ;;
     (fun w => call (CPut s local_path remote_path)
                    (sftp_put P s local_path remote_path (local_fs w)) w) ;;;
     ret RTrue)
    (fun e =>
       match exn_class e with
       | PermissionError =>
           ret (RStr (lit "Error: Permission denied: " ++ remote_path))
       | _ => ret (RStr (lit "Error: " ++ exn_text e))
       end).

(** *** [SFTPClient.download_to_local] *)

(** [self.sftp.get(remote, local)]: recorded like every call; it may
    write the local file system. *)
Definition call_get (s : handle) (remote_path local_path : str) : M unit :=
  fun w =>
    match sftp_get P s remote_path local_path (local_fs w) (net w) with
    | (r, (fs, n)) =>
        (r, mkWorld n fs (trace w ++ [CGet s remote_path local_path])
                    (sftp_client w))
    end.

Definition download_to_local (self : SFTPClient)
           (remote_path local_path : str) : M Ret :=
  try_except
    (s <- the_sftp self "stat" ;;
     st <- call (CStat s (VStr remote_path)) (sftp_stat P s (VStr remote_path)) ;;
     d <- lift (S_ISDIR_of (st_mode st)) ;;
     if d : bool
     then ret (RStr (lit "Error: '" ++ remote_path ++ lit "' is a directory"))
     else
       (s' <- the_sftp self "get" ;;
        call_get s' remote_path local_path ;;;
        ret RTrue))
    (fun e =>
       match exn_class e with
       | FileNotFoundError =>
           ret (RStr (lit "Error: File not found: " ++ remote_path))
       | PermissionError =>
           ret (RStr (lit "Error: Permission denied: " ++ remote_path))
       | _ => ret (RStr (lit "Error: " ++ exn_text e))
       end).

(** *** [SFTPClient.stat] *)

Definition stat (self : SFTPClient) (p : str) : M Ret :=
  try_except
    (s <- the_sftp self "stat" ;;
     st <- call (CStat s (VStr p)) (sftp_stat P s (VStr p)) ;;
     d <- lift (S_ISDIR_of (st_mode st)) ;;
     ret (RDict (mkStatInfo (st_size st) (st_mtime st) (st_mode st) d)))
    (fun e =>
       match exn_class e with
       | FileNotFoundError => ret (RStr (lit "Error: Path not found: " ++ p))
       | _ => ret (RStr (lit "Error: " ++ exn_text e))
       end).

(** *** [SFTPClient.close] *)

Definition close (self : SFTPClient) : M unit :=
  suppress
    (match sftp self with
     | Some s => call (CSftpClose s) (sftp_close P s)
     | None => ret tt
     end ;;;
     match client self with
     | Some c => call (CSshClose c) (ssh_close P c)
     | None => ret tt
     end).
(** A remote store that gives back what it was given: the bytes written
    to a path through a file that was opened, written and closed are the
    bytes a following open and read of that path return. *)
Definition reads_back : Prop :=
  forall s p data f n0 n1 n2 n3 f' n4 data' n5,
    sftp_open P s p ModeW n0 = (Ok f, n1) ->
    file_write P f data n1 = (Ok tt, n2) ->
    file_close P f n2 = (Ok tt, n3) ->
    sftp_open P s p ModeRB n3 = (Ok f', n4) ->
    file_read P f' None n4 = (Ok data', n5) ->
    data' = data.

(** The body of the [with] block of [write_file]. *)
Definition write_body (content : Value) (f : handle) : M unit :=
  match content with
  | VStr s => fwrite_str f s
  | _ => s <- lift (decode_content content) ;; fwrite_str f s
  end.



End Client.

(** ** Requests and responses *)

(** An uploaded file ([request.files[...]]). *)
Record Upload : Type := mkUpload {
  up_filename : str;
  up_data : bytes
}.

(** What a handler reads of the request.  [req_json] is [request.json],
    which raises when the body is not JSON. *)
Record Request : Type := mkRequest {
  req_json : Outcome Value;
  req_args : list (str * str);
  req_form : list (str * str);
  req_files : list (str * Upload)
}.

(** The keyword arguments of [jsonify] besides [success]. *)
Inductive Payload : Type :=
| NoPayload
| Message (m : Ret)
| Items (l : list Item)
| Content (s : str)
| Info (i : StatInfo).

Inductive Response : Type :=
| Jsonify (status : Z) (success : bool) (payload : Payload)
| SendFile (download_name : str) (data : bytes).

Definition not_connected : Response :=
  Jsonify 400 false (Message (RStr (lit "Not connected"))).

Definition missing_path : Response :=
  Jsonify 400 false (Message (RStr (lit "Missing path"))).

(** [os.path.basename(p)]: what follows the last slash. *)
Definition basename (p : str) : str :=
  List.fold_left (fun acc c => if c =? slash then [] else acc ++ [c]) p [].

Section Routes.
Context {Net : Type} (P : Paramiko Net) (L : PyLib).
Local Open Scope gw_scope.

Local Abbreviation M := (@M Net).

(** *** Local files *)

Definition set_local (fs : LocalFS) : M unit :=
  fun w => (Ok tt, mkWorld (net w) fs (trace w) (sftp_client w)).

(** [tempfile.mkstemp()] and [NamedTemporaryFile(delete=False)]: a new
    empty file under a name that was free. *)
Definition mkstemp : M str :=
  fun w =>
    let p := tmp_name L (local_fs w) in
    match local_fs w !! p with
    | None => (Ok p, mkWorld (net w) (<[p := []]> (local_fs w)) (trace w)
                             (sftp_client w))
    | Some _ => (Raise (mkExn FileExistsError (lit "FileExistsError")
                              (lit "No usable temporary file name found")), w)
    end.

Definition os_remove (p : str) : M unit :=
  fun w =>
    match local_fs w !! p with
    | Some _ => (Ok tt, mkWorld (net w) (delete p (local_fs w)) (trace w)
                                (sftp_client w))
    | None => (Raise (mkExn FileNotFoundError (lit "FileNotFoundError")
                            (lit "[Errno 2] No such file or directory")), w)
    end.

(** [f.save(p)]. *)
Definition save_upload (f : Upload) (p : str) : M unit :=
  fun w => (Ok tt, mkWorld (net w) (<[p := up_data f]> (local_fs w)) (trace w)
                           (sftp_client w)).

(** [send_file(p, as_attachment=True, download_name=name, ...)]. *)
Definition send_file (p name : str) : M Response :=
  fun w =>
    match local_fs w !! p with
    | Some data => (Ok (SendFile name data), w)
    | None => (Raise (mkExn FileNotFoundError (lit "FileNotFoundError")
                            (lit "[Errno 2] No such file or directory")), w)
    end.

(** *** Reading the request *)

(** [request.json or {}]. *)
Definition request_data (req : Request) : M Value :=
  v <- lift (req_json req) ;;
  ret (if truthy v then v else VDict []).

(** [data.get(k, default)]; only a dict has [get]. *)
Definition dict_get (data : Value) (k : string) (default : Value) : M Value :=
  match data with
  | VDict d =>
      ret (match assoc (lit k) d with Some v => v | None => default end)
  | _ => raise (AttributeError (type_name data) (lit "get"))
  end.

(** [request.args.get(k)]. *)
Definition arg (req : Request) (k : string) : option str :=
  assoc (lit k) (req_args req).

Definition rejected : Response :=
  Jsonify 400 false
          (Message (RStr (lit "host, username and password required"))).

(** The fields of the JSON body when [request.json or {}] is a dict: the
    body itself, or no field at all for a body that is falsy ([null],
    [0], [""], [[]], [{}]). *)
Definition body_fields (req : Request) : option (list (str * Value)) :=
  match req_json req with
  | Ok v =>
      if truthy v
      then match v with VDict d => Some d | _ => None end
      else Some []
  | Raise _ => None
  end.

(** [d.get(k, default)] on the association list of a dict. *)
Definition dget (d : list (str * Value)) (k : string) (default : Value) : Value :=
  match assoc (lit k) d with Some v => v | None => default end.

(** *** [connect_route] *)

(** [SFTPClient(host, port, username, password)]. *)
Definition new_client (h p u pw : Value) : M SFTPClient :=
  n <- lift (int_ L p) ;;
  ret (mkClient h n u pw None None).

Definition connect_route (req : Request) : M Response :=
  data <- request_data req ;;
  h <- dict_get data "host" VNone ;;
  p <- dict_get data "port" (VInt 22) ;;
  u <- dict_get data "username" VNone ;;
  pw <- dict_get data "password" VNone ;;
  if negb (truthy h) || negb (truthy u)
     || match pw with VNone => true | _ => false end
  then ret (Jsonify 400 false
              (Message (RStr (lit "host, username and password required"))))
  else
    g <- get_global ;;
    match g with
    | Some old => suppress (close P old)
    | None => ret tt
    end ;;;
    self <- new_client h p u pw ;;
    set_global (Some self) ;;;
    r <- connect P self ;;
    match r with
    | (RTrue, self') =>
        set_global (Some self') ;;;
        ret (Jsonify 200 true (Message (RStr (lit "Connected successfully"))))
    | (res, _) =>
        set_global None ;;;
        ret (Jsonify 500 false (Message res))
    end.

(** *** [disconnect_route] *)

Definition disconnect_route (req : Request) : M Response :=
  g <- get_global ;;
  match g with
  | Some c => suppress (close P c) ;;; set_global None
  | None => ret tt
  end ;;;
  ret (Jsonify 200 true NoPayload).
(** *** The file operations *)

(** [jsonify(success=False, message=res), 500]. *)
Definition failed (res : Ret) : Response := Jsonify 500 false (Message res).

(** The common tail of the routes that expect [True]. *)
Definition acknowledge (res : Ret) : Response :=
  match res with
  | RTrue => Jsonify 200 true NoPayload
  | _ => failed res
  end.

Definition api_list (req : Request) : M Response :=
  g <- get_global ;;
  match g with
  | None => ret not_connected
  | Some c =>
      let p := match arg req "path" with Some p => p | None => lit "/" end in
      result <- listdir P L c p ;;
      match result with
      | RList items => ret (Jsonify 200 true (Items items))
      | _ => ret (failed result)
      end
  end.

Definition api_read (req : Request) : M Response :=
  g <- get_global ;;
  match g with
  | None => ret not_connected
  | Some c =>
      match arg req "path" with
      | Some p =>
          if truthy_str p then
            max_bytes <-
              match arg req "max" with
              | Some m =>
                  if truthy_str m
                  then n <- lift (int_ L (VStr m)) ;; ret (Some n)
                  else ret None
              | None => ret None
              end ;;
            result <- read_file P c p max_bytes ;;
            match result with
            | RStr s =>
                if negb (startswith s (lit "Error:"))
                then ret (Jsonify 200 true (Content s))
                else ret (failed result)
            | _ => ret (failed result)
            end
          else ret missing_path
      | None => ret missing_path
      end
  end.

Definition api_write (req : Request) : M Response :=
  g <- get_global ;;
  match g with
  | None => ret not_connected
  | Some c =>
      data <- request_data req ;;
      p <- dict_get data "path" VNone ;;
      content <- dict_get data "content" (VStr []) ;;
      if truthy p then
        result <- write_file P L c p content ;;
        ret (acknowledge result)
      else ret missing_path
  end.

Definition api_mkdir (req : Request) : M Response :=
  g <- get_global ;;
  match g with
  | None => ret not_connected
  | Some c =>
      data <- request_data req ;;
      p <- dict_get data "path" VNone ;;
      if truthy p then
        res <- mkdir P L c p ;;
        ret (acknowledge res)
      else ret missing_path
  end.

Definition api_remove (req : Request) : M Response :=
  g <- get_global ;;
  match g with
  | None => ret not_connected
  | Some c =>
      data <- request_data req ;;
      p <- dict_get data "path" VNone ;;
      if truthy p then
        res <- remove P L c p ;;
        ret (acknowledge res)
      else ret missing_path
  end.

Definition api_rename (req : Request) : M Response :=
  g <- get_global ;;
  match g with
  | None => ret not_connected
  | Some c =>
      data <- request_data req ;;
      old <- dict_get data "old" VNone ;;
      new <- dict_get data "new" VNone ;;
      if truthy old && truthy new then
        res <- rename P L c old new ;;
        ret (acknowledge res)
      else ret (Jsonify 400 false
                  (Message (RStr (lit "Missing old or new path"))))
  end.

Definition api_upload (req : Request) : M Response :=
  g <- get_global ;;
  match g with
  | None => ret not_connected
  | Some c =>
      match assoc (lit "file") (req_files req) with
      | None => ret (Jsonify 400 false (Message (RStr (lit "No file provided"))))
      | Some f =>
          if negb (truthy_str (up_filename f))
          then ret (Jsonify 400 false (Message (RStr (lit "No file selected"))))
          else
            let remote_dir :=
              match assoc (lit "remote_dir") (req_form req) with
              | Some d => d
              | None => lit "/"
              end in
            let fname := secure_filename L (up_filename f) in
            let remote_path := rstrip_slash remote_dir ++ lit "/" ++ fname in
            tmp <- mkstemp ;;
            finally
              (save_upload f tmp ;;;
               res <- upload_local P c tmp remote_path ;;
               ret (acknowledge res))
              (suppress (os_remove tmp))
      end
  end.

Definition api_download (req : Request) : M Response :=
  g <- get_global ;;
  match g with
  | None => ret not_connected
  | Some c =>
      match arg req "path" with
      | Some p =>
          if truthy_str p then
            tmp_path <- mkstemp ;;
            res <- download_to_local P c p tmp_path ;;
            match res with
            | RTrue =>
                finally (send_file tmp_path (basename p))
                        (suppress (os_remove tmp_path))
            | _ =>
                suppress (os_remove tmp_path) ;;;
                ret (failed res)
            end
          else ret missing_path
      | None => ret missing_path
      end
  end.

Definition api_stat (req : Request) : M Response :=
  g <- get_global ;;
  match g with
  | None => ret not_connected
  | Some c =>
      match arg req "path" with
      | Some p =>
          if truthy_str p then
            res <- stat P c p ;;
            match res with
            | RDict info => ret (Jsonify 200 true (Info info))
            | _ => ret (failed res)
            end
          else ret missing_path
      | None => ret missing_path
      end
  end.

(** The nine file operations and their routes. *)
Inductive Operation : Type :=
| OpList | OpRead | OpWrite | OpMkdir | OpRemove
| OpRename | OpUpload | OpDownload | OpStat.

Definition route (op : Operation) : Request -> M Response :=
  match op with
  | OpList => api_list
  | OpRead => api_read
  | OpWrite => api_write
  | OpMkdir => api_mkdir
  | OpRemove => api_remove
  | OpRename => api_rename
  | OpUpload => api_upload
  | OpDownload => api_download
  | OpStat => api_stat
  end.
(** The remote path an upload request is sent to. *)
Definition upload_target (req : Request) (f : Upload) : str :=
  rstrip_slash (match assoc (lit "remote_dir") (req_form req) with
                | Some d => d
                | None => lit "/"
                end)
  ++ lit "/" ++ secure_filename L (up_filename f).

(** The byte cap of a read request: none when [max] is absent or empty,
    else what [int] makes of it. *)
Definition read_cap (req : Request) : Outcome (option Z) :=
  match arg req "max" with
  | Some m =>
      if truthy_str m
      then match int_ L (VStr m) with
           | Ok n => Ok (Some n)
           | Raise e => Raise e
           end
      else Ok None
  | None => Ok None
  end.

End Routes.

(** * A server and a library to run the program on *)

(** ** An in-memory SFTP server behind paramiko

    The remote file system is a list of paths with what they hold, kept
    in the order the server lists them.  The answers follow what
    paramiko makes of an OpenSSH server: an absent path is a
    [FileNotFoundError] ("No such file"); every other refusal, among
    them [rmdir] on a directory that still has entries, arrives as a
    plain [OSError] whose text is "Failure". *)

Module Mem.

Inductive Node : Type := File (data : bytes) | Dir.

Record State : Type := mkState {
  tree : list (str * Node);
  opened : list (handle * str);
  next : handle;
  accounts : list (str * str)
}.

Definition no_such_file : Exn :=
  mkExn FileNotFoundError (lit "FileNotFoundError")
        (lit "[Errno 2] No such file").

Definition failure : Exn := mkExn OtherOSError (lit "OSError") (lit "Failure").

Definition bad_path : Exn :=
  TypeError (lit "expected str, bytes or os.PathLike object").

Definition auth_failed : Exn :=
  mkExn AuthenticationException (lit "AuthenticationException")
        (lit "Authentication failed.").

Fixpoint get (q : str) (t : list (str * Node)) : option Node :=
  match t with
  | [] => None
  | (k, v) :: t' => if str_eqb k q then Some v else get q t'
  end.

(** Replaces the node at [q], or adds it at the end. *)
Fixpoint put (q : str) (v : Node) (t : list (str * Node)) : list (str * Node) :=
  match t with
  | [] => [(q, v)]
  | (k, v') :: t' => if str_eqb k q then (k, v) :: t' else (k, v') :: put q v t'
  end.

Definition drop (q : str) (t : list (str * Node)) : list (str * Node) :=
  List.filter (fun kv => negb (str_eqb (fst kv) q)) t.

(** The directory part of a path; the root for a path right under it. *)
Definition dirname (q : str) : str :=
  match rstrip_slash (List.firstn (length q - length (basename q)) q) with
  | [] => lit "/"
  | d => d
  end.

Definition children (d : str) (t : list (str * Node)) : list (str * Node) :=
  List.filter (fun kv => str_eqb (dirname (fst kv)) d
                         && negb (str_eqb (fst kv) (lit "/"))) t.

Definition attr_of (q : str) (v : Node) : SFTPAttributes :=
  match v with
  | Dir => mkAttr (basename q) (Some 16877) (Some 4096) (Some 0)
  | File data => mkAttr (basename q) (Some 33188)
                        (Some (Z.of_nat (length data))) (Some 0)
  end.

(** The root always exists. *)
Definition node_at (q : str) (t : list (str * Node)) : option Node :=
  if str_eqb q (lit "/") then Some Dir else get q t.

Definition with_tree (st : State) (t : list (str * Node)) : State :=
  mkState t (opened st) (next st) (accounts st).

Definition fresh_handle (st : State) : handle * State :=
  (next st, mkState (tree st) (opened st) (S (next st)) (accounts st)).

Definition on_path {A} (p : Value) (st : State)
           (k : str -> Outcome A * State) : Outcome A * State :=
  match p with
  | VStr q => k q
  | _ => (Raise bad_path, st)
  end.

Definition m_connect (c : handle) (h : Value) (port : Z) (u pw : Value)
           (st : State) : Outcome unit * State :=
  match u, pw with
  | VStr user, VStr pass =>
      if List.existsb (fun a => str_eqb (fst a) user && str_eqb (snd a) pass)
                      (accounts st)
      then (Ok tt, st) else (Raise auth_failed, st)
  | _, _ => (Raise auth_failed, st)
  end.

Definition m_open_sftp (c : handle) (st : State) : Outcome handle * State :=
  match fresh_handle st with (h, st') => (Ok h, st') end.

Definition m_listdir (s : handle) (p : Value) (st : State)
  : Outcome (list SFTPAttributes) * State :=
  on_path p st (fun q =>
    match node_at q (tree st) with
    | Some Dir =>
        (Ok (List.map (fun kv => attr_of (fst kv) (snd kv))
                      (children q (tree st))), st)
    | Some (File _) => (Raise failure, st)
    | None => (Raise no_such_file, st)
    end).

Definition m_open (s : handle) (p : Value) (m : OpenMode) (st : State)
  : Outcome handle * State :=
  on_path p st (fun q =>
    match m, node_at q (tree st) with
    | _, Some Dir => (Raise failure, st)
    | ModeRB, None => (Raise no_such_file, st)
    | ModeRB, Some (File _) =>
        (Ok (next st),
         mkState (tree st) ((next st, q) :: opened st) (S (next st))
                 (accounts st))
    | ModeW, _ =>
        (Ok (next st),
         mkState (put q (File []) (tree st)) ((next st, q) :: opened st)
                 (S (next st)) (accounts st))
    end).

Fixpoint path_of (f : handle) (o : list (handle * str)) : option str :=
  match o with
  | [] => None
  | (h, q) :: o' => if Nat.eqb h f then Some q else path_of f o'
  end.

Definition m_read (f : handle) (n : option Z) (st : State)
  : Outcome bytes * State :=
  match path_of f (opened st) with
  | Some q =>
      match get q (tree st) with
      | Some (File data) =>
          (Ok match n with
              | Some k => if k <? 0 then data else List.firstn (Z.to_nat k) data
              | None => data
              end, st)
      | _ => (Raise failure, st)
      end
  | None => (Raise failure, st)
  end.

Definition m_write (f : handle) (data : bytes) (st : State)
  : Outcome unit * State :=
  match path_of f (opened st) with
  | Some q =>
      match get q (tree st) with
      | Some (File old) => (Ok tt, with_tree st (put q (File (old ++ data)) (tree st)))
      | _ => (Raise failure, st)
      end
  | None => (Raise failure, st)
  end.

Definition m_close_file (f : handle) (st : State) : Outcome unit * State :=
  (Ok tt,
   mkState (tree st)
           (List.filter (fun hq => negb (Nat.eqb (fst hq) f)) (opened st))
           (next st) (accounts st)).

Definition m_mkdir (s : handle) (p : Value) (st : State)
  : Outcome unit * State :=
  on_path p st (fun q =>
    match node_at q (tree st) with
    | Some _ => (Raise failure, st)
    | None => (Ok tt, with_tree st (put q Dir (tree st)))
    end).

Definition m_stat (s : handle) (p : Value) (st : State)
  : Outcome SFTPAttributes * State :=
  on_path p st (fun q =>
    match node_at q (tree st) with
    | Some v => (Ok (attr_of q v), st)
    | None => (Raise no_such_file, st)
    end).

Definition m_rmdir (s : handle) (p : Value) (st : State)
  : Outcome unit * State :=
  on_path p st (fun q =>
    match get q (tree st) with
    | Some Dir =>
        match children q (tree st) with
        | [] => (Ok tt, with_tree st (drop q (tree st)))
        | _ => (Raise failure, st)
        end
    | Some (File _) => (Raise failure, st)
    | None => (Raise no_such_file, st)
    end).

Definition m_remove (s : handle) (p : Value) (st : State)
  : Outcome unit * State :=
  on_path p st (fun q =>
    match get q (tree st) with
    | Some (File _) => (Ok tt, with_tree st (drop q (tree st)))
    | Some Dir => (Raise failure, st)
    | None => (Raise no_such_file, st)
    end).

Definition m_rename (s : handle) (old new : Value) (st : State)
  : Outcome unit * State :=
  on_path old st (fun o =>
    on_path new st (fun n =>
      match get o (tree st), get n (tree st) with
      | None, _ => (Raise no_such_file, st)
      | Some _, Some _ => (Raise failure, st)
      | Some _, None =>
          (Ok tt,
           with_tree st
             (List.map
                (fun kv =>
                   if str_eqb (fst kv) o then (n, snd kv)
                   else if startswith (fst kv) (o ++ lit "/")
                        then (n ++ List.skipn (length o) (fst kv), snd kv)
                        else kv)
                (tree st)))
      end)).

Definition m_put (s : handle) (local_path remote_path : str) (fs : LocalFS)
           (st : State) : Outcome unit * State :=
  match fs !! local_path with
  | Some data =>
      match node_at remote_path (tree st) with
      | Some Dir => (Raise failure, st)
      | _ => (Ok tt, with_tree st (put remote_path (File data) (tree st)))
      end
  | None => (Raise no_such_file, st)
  end.

Definition m_get (s : handle) (remote_path local_path : str) (fs : LocalFS)
           (st : State) : Outcome unit * (LocalFS * State) :=
  match get remote_path (tree st) with
  | Some (File data) => (Ok tt, (<[local_path := data]> fs, st))
  | Some Dir => (Raise failure, (fs, st))
  | None => (Raise no_such_file, (fs, st))
  end.

Definition paramiko : Paramiko State := {|
  ssh_new := fresh_handle;
  ssh_connect := m_connect;
  ssh_open_sftp := m_open_sftp;
  ssh_close := fun _ st => (Ok tt, st);
  sftp_close := fun _ st => (Ok tt, st);
  sftp_listdir_attr := m_listdir;
  sftp_open := m_open;
  file_read := m_read;
  file_write := m_write;
  file_close := m_close_file;
  sftp_mkdir := m_mkdir;
  sftp_stat := m_stat;
  sftp_rmdir := m_rmdir;
  sftp_remove := m_remove;
  sftp_rename := m_rename;
  sftp_put := m_put;
  sftp_get := m_get
|}.

End Mem.

(** ** The library functions, on the inputs the examples use *)

Module Lib.

(** [str.lower] on ASCII text: the letters [A] to [Z] move down, every
    other code point stays. *)
Definition ascii_lower (s : str) : str :=
  List.map (fun c => if (65 <=? c) && (c <=? 90) then c + 32 else c) s.

Definition ValueError (text : str) : Exn :=
  mkExn OtherException (lit "ValueError") text.

(** Decimal digits, most significant first. *)
Fixpoint digits (acc : Z) (s : str) : option Z :=
  match s with
  | [] => Some acc
  | c :: s' =>
      if (48 <=? c) && (c <=? 57) then digits (acc * 10 + (c - 48)) s'
      else None
  end.

(** [int(v)] for an [int], a [bool] and a [str] of decimal digits with
    an optional sign. *)
Definition to_int (v : Value) : Outcome Z :=
  match v with
  | VInt z => Ok z
  | VBool b => Ok (if b then 1 else 0)
  | VStr (c :: s) =>
      match (if c =? 45 then option_map Z.opp
                               match s with [] => None | _ => digits 0 s end
             else if c =? 43 then match s with [] => None | _ => digits 0 s end
                  else digits 0 (c :: s)) with
      | Some z => Ok z
      | None => Raise (ValueError (lit "invalid literal for int() with base 10"))
      end
  | VStr [] => Raise (ValueError (lit "invalid literal for int() with base 10"))
  | _ => Raise (TypeError
                  (lit "int() argument must be a string, a bytes-like object or a real number"))
  end.

(** [str(v)] for the scalars; a container is shown by its brackets. *)
Definition to_str (v : Value) : str :=
  match v with
  | VNone => lit "None"
  | VBool true => lit "True"
  | VBool false => lit "False"
  | VInt z =>
      lit (NilZero.string_of_int (Z.to_int z))
  | VStr s => s
  | VBytes _ => lit "b'...'"
  | VList _ => lit "[...]"
  | VDict _ => lit "{...}"
  end.

(** A staging name that changes with the number of local files. *)
Definition staging_name (fs : LocalFS) : str :=
  lit "/tmp/tmp" ++ List.repeat 120 (base.size fs).

Definition pylib : PyLib := {|
  lower := ascii_lower;
  int_ := to_int;
  str_ := to_str;
  secure_filename := basename;
  tmp_name := staging_name
|}.

End Lib.

(** ** A sample remote tree and sample worlds *)

Definition mode_dir : Z := 16877.   (* 0o40755 *)
Definition mode_file : Z := 33188.  (* 0o100644 *)

Definition sample_tree : list (str * Mem.Node) :=
  [ (lit "/readme.txt", Mem.File (lit "hello"));
    (lit "/bin", Mem.Dir);
    (lit "/bin/ls", Mem.File [127; 69; 76; 70]);
    (lit "/log.txt", Mem.File (lit "Error: disk full"));
    (lit "/Notes", Mem.File (lit "upper"));
    (lit "/notes", Mem.File (lit "lower")) ].

Definition sample_server (t : list (str * Mem.Node)) : Mem.State :=
  Mem.mkState t [] 2%nat [(lit "u", lit "p"); (lit "guest", [])].

(** The object a successful connect leaves in the global. *)
Definition sample_client : SFTPClient :=
  mkClient (VStr (lit "h")) 22 (VStr (lit "u")) (VStr (lit "p")) (Some 0%nat)
           (Some 1%nat).

Definition offline (t : list (str * Mem.Node)) : World Mem.State :=
  mkWorld (sample_server t) ∅ [] None.

Definition online (t : list (str * Mem.Node)) : World Mem.State :=
  mkWorld (sample_server t) ∅ [] (Some sample_client).

Definition get_request (args : list (str * str)) : Request :=
  mkRequest (Ok VNone) args [] [].

Definition json_request (fields : list (str * Value)) : Request :=
  mkRequest (Ok (VDict fields)) [] [] [].

Definition listed_names (r : Outcome Ret) : list str :=
  match r with
  | Ok (RList items) => List.map name items
  | _ => []
  end.

(** The sample tree with its last two entries in the other order. *)
Definition sample_tree_swapped : list (str * Mem.Node) :=
  [ (lit "/readme.txt", Mem.File (lit "hello"));
    (lit "/bin", Mem.Dir);
    (lit "/bin/ls", Mem.File [127; 69; 76; 70]);
    (lit "/log.txt", Mem.File (lit "Error: disk full"));
    (lit "/notes", Mem.File (lit "lower"));
    (lit "/Notes", Mem.File (lit "upper")) ].

(** The listing of the root of the sample tree. *)
Definition root_listing : list Item :=
  [ mkItem (lit "bin") (lit "/bin") true (Some 4096) (Some 0);
    mkItem (lit "log.txt") (lit "/log.txt") false (Some 16) (Some 0);
    mkItem (lit "Notes") (lit "/Notes") false (Some 5) (Some 0);
    mkItem (lit "notes") (lit "/notes") false (Some 5) (Some 0);
    mkItem (lit "readme.txt") (lit "/readme.txt") false (Some 5) (Some 0) ].

(** Text with a two-byte, a three-byte and a four-byte code point. *)
Definition sample_text : str := lit "caf" ++ [233; 32; 8364; 32; 128512].


Definition empty_host_fields : list (str * Value) :=
  [(lit "host", VStr []); (lit "username", VStr (lit "u"));
   (lit "password", VStr (lit "p"))].

Definition empty_password_fields : list (str * Value) :=
  [(lit "host", VStr (lit "h")); (lit "username", VStr (lit "guest"));
   (lit "password", VStr [])].

(** ** Shapes of results *)

(** A failure report of a method: a [str] that starts with ["Error:"],
    the only mark by which the routes of [read] can tell it from
    content. *)
Definition is_error_report (r : Ret) : bool :=
  match r with
  | RStr s => startswith s (lit "Error:")
  | _ => false
  end.

(** [True] or a failure report. *)
Definition acknowledged_or_error (r : Ret) : Prop :=
  r = RTrue \/ is_error_report r = true.

(** Octets. *)
Definition wf_bytes (b : bytes) : Prop := Forall (fun x => 0 <= x < 256) b.

(** An answer in the shape every JSON route promises: status 200 with
    the success flag set, or status 400 or 500 with the flag cleared. *)
Definition json_answer (r : Response) : Prop :=
  match r with
  | Jsonify st ok _ =>
      (st = 200 /\ ok = true) \/ ((st = 400 \/ st = 500) /\ ok = false)
  | SendFile _ _ => False
  end.

(** The bytes [write_file] has for paramiko, if any: the encoding of a
    text, the re-encoding of bytes that decode, nothing for any other
    content. *)
Definition content_bytes (content : Value) : option bytes :=
  match content with
  | VStr s => Utf8.encode s
  | VBytes b =>
      match Utf8.decode_strict b with
      | Some s => Utf8.encode s
      | None => None
      end
  | _ => None
  end.

(** The sample server when it sends no permission bits with the
    entries of a listing. *)
Definition bare_listing (s : handle) (p : Value) (st : Mem.State)
  : Outcome (list SFTPAttributes) * Mem.State :=
  match Mem.m_listdir s p st with
  | (Ok attrs, st') =>
      (Ok (List.map (fun a => mkAttr (filename a) None (st_size a) (st_mtime a))
                    attrs), st')
  | other => other
  end.

Definition bare_paramiko : Paramiko Mem.State := {|
  ssh_new := Mem.fresh_handle;
  ssh_connect := Mem.m_connect;
  ssh_open_sftp := Mem.m_open_sftp;
  ssh_close := fun _ st => (Ok tt, st);
  sftp_close := fun _ st => (Ok tt, st);
  sftp_listdir_attr := bare_listing;
  sftp_open := Mem.m_open;
  file_read := Mem.m_read;
  file_write := Mem.m_write;
  file_close := Mem.m_close_file;
  sftp_mkdir := Mem.m_mkdir;
  sftp_stat := Mem.m_stat;
  sftp_rmdir := Mem.m_rmdir;
  sftp_remove := Mem.m_remove;
  sftp_rename := Mem.m_rename;
  sftp_put := Mem.m_put;
  sftp_get := Mem.m_get
|}.

Definition upload_request : Request :=
  mkRequest (Ok VNone) [] [(lit "remote_dir", lit "/bin/")]
            [(lit "file", mkUpload (lit "notes.txt") (lit "remember"))].

Definition connect_request : Request :=
  json_request [(lit "host", VStr (lit "h")); (lit "port", VInt 22);
                (lit "username", VStr (lit "u"));
                (lit "password", VStr (lit "p"))].

(** * Properties *)

(** ** Reasoning about computations *)

Section MonadFacts.
Context {Net : Type}.
Local Open Scope gw_scope.
Local Abbreviation M := (@M Net).

Lemma bind_ok {A B} (m : M A) (k : A -> M B) w a w1 :
  m w = (Ok a, w1) -> bind m k w = k a w1.
Proof. unfold bind. now intros ->. Qed.

Lemma bind_raise {A B} (m : M A) (k : A -> M B) w e w1 :
  m w = (Raise e, w1) -> bind m k w = (Raise e, w1).
Proof. unfold bind. now intros ->. Qed.

Lemma bind_inv_ok {A B} (m : M A) (k : A -> M B) w b w2 :
  bind m k w = (Ok b, w2) ->
  exists a w1, m w = (Ok a, w1) /\ k a w1 = (Ok b, w2).
Proof.
  unfold bind. destruct (m w) as [[a|e] w1]; [eauto | discriminate].
Qed.

Lemma suppress_ok (m : M unit) w :
  exists w1, suppress m w = (Ok tt, w1).
Proof.
  unfold suppress, try_except, ret.
  destruct (m w) as [[[]|e] w1]; eauto.
Qed.

Lemma keeps_global_ret {A} (a : A) : keeps_global (Net:=Net) (ret a).
Proof. intros w r w1 [= _ <-]. reflexivity. Qed.

Lemma keeps_global_raise {A} e : keeps_global (Net:=Net) (@raise Net A e).
Proof. intros w r w1 [= _ <-]. reflexivity. Qed.

Lemma keeps_global_lift {A} (o : Outcome A) : keeps_global (Net:=Net) (lift o).
Proof. intros w r w1 [= _ <-]. reflexivity. Qed.

Lemma keeps_global_call {A} c (op : Net -> Outcome A * Net) :
  keeps_global (Net:=Net) (call c op).
Proof.
  intros w r w1. unfold call. destruct (op (net w)) as [r' n].
  intros [= _ <-]. reflexivity.
Qed.

Lemma keeps_global_bind {A B} (m : M A) (k : A -> M B) :
  keeps_global (Net:=Net) m -> (forall a, keeps_global (Net:=Net) (k a)) -> keeps_global (Net:=Net) (bind m k).
Proof.
  intros Hm Hk w r w2. unfold bind.
  destruct (m w) as [[a|e] w1] eqn:E.
  - intros H. rewrite (Hk a _ _ _ H). exact (Hm _ _ _ E).
  - intros [= _ <-]. exact (Hm _ _ _ E).
Qed.

Lemma keeps_global_try {A} (m : M A) (h : Exn -> M A) :
  keeps_global (Net:=Net) m -> (forall e, keeps_global (Net:=Net) (h e)) ->
  keeps_global (Net:=Net) (try_except m h).
Proof.
  intros Hm Hh w r w2. unfold try_except.
  destruct (m w) as [[a|e] w1] eqn:E.
  - intros [= _ <-]. exact (Hm _ _ _ E).
  - intros H. rewrite (Hh e _ _ _ H). exact (Hm _ _ _ E).
Qed.

Lemma keeps_global_finally {A} (m : M A) (f : M unit) :
  keeps_global (Net:=Net) m -> keeps_global (Net:=Net) f -> keeps_global (Net:=Net) (finally m f).
Proof.
  intros Hm Hf w r w2. unfold finally.
  destruct (m w) as [r1 w1] eqn:E.
  destruct (f w1) as [[[]|e] w1'] eqn:E'; intros [= _ <-];
    rewrite (Hf _ _ _ E'); exact (Hm _ _ _ E).
Qed.
End MonadFacts.

Create HintDb gw.
#[local] Hint Resolve keeps_global_ret keeps_global_raise keeps_global_lift
  keeps_global_call keeps_global_bind keeps_global_try keeps_global_finally
  : gw.

(** ** Session gate and session lifecycle *)

Section Session.
Context {Net : Type} (P : Paramiko Net) (L : PyLib).
Local Open Scope gw_scope.


(** C1.  With no active session (the global [sftp_client] is [None]),
    each of the nine file operations answers "Not connected" with
    status 400 at once: the world after the request is the world
    before it, so nothing was sent to paramiko (the trace and the
    network state are unchanged) and no local file was touched. *)
Theorem not_connected_before_network
        (op : Operation) (req : Request) (w : World Net) :
  sftp_client w = None ->
  route P L op req w = (Ok not_connected, w).
Proof.
  intros H.
  destruct op; cbn [route];
    unfold api_list, api_read, api_write, api_mkdir, api_remove,
           api_rename, api_upload, api_download, api_stat;
    unfold bind, get_global; rewrite H; reflexivity.
Qed.

Lemma close_ok (c : SFTPClient) (w : World Net) :
  exists w1, close P c w = (Ok tt, w1) /\ sftp_client w1 = sftp_client w.
Proof.
  destruct (suppress_ok
              (match sftp c with
               | Some s => call (CSftpClose s) (sftp_close P s)
               | None => ret tt
               end ;;;
               match client c with
               | Some h => call (CSshClose h) (ssh_close P h)
               | None => ret tt
               end) w) as [w1 E].
  exists w1. split; [exact E|].
  revert E. apply keeps_global_try; [|auto with gw].
  apply keeps_global_bind; [|intros _]; case_match; auto with gw.
Qed.

Lemma suppress_close_ok (c : SFTPClient) (w : World Net) :
  exists w1, suppress (close P c) w = (Ok tt, w1)
             /\ sftp_client w1 = sftp_client w.
Proof.
  destruct (close_ok c w) as (w1 & E & G).
  exists w1. split; [|exact G].
  unfold suppress, try_except. now rewrite E.
Qed.

(** C8.  [disconnect_route] answers success in every state, whatever
    the close calls do (their exceptions are swallowed), and leaves no
    active session; a second call from the state it leaves answers
    success again and changes nothing. *)
Theorem disconnect_idempotent (req req' : Request) (w : World Net) :
  exists w1,
    disconnect_route P req w = (Ok (Jsonify 200 true NoPayload), w1)
    /\ sftp_client w1 = None
    /\ disconnect_route P req' w1 = (Ok (Jsonify 200 true NoPayload), w1).
Proof.
  assert (Hnone : forall r (v : World Net), sftp_client v = None ->
            disconnect_route P r v = (Ok (Jsonify 200 true NoPayload), v)).
  { intros r v Hv. unfold disconnect_route, bind, get_global.
    rewrite Hv. reflexivity. }
  destruct (sftp_client w) as [c|] eqn:G.
  - destruct (suppress_close_ok c w) as (w1 & E & _).
    exists (mkWorld (net w1) (local_fs w1) (trace w1) None).
    split; [|split; [reflexivity | now apply Hnone]].
    unfold disconnect_route, bind, get_global. rewrite G, E. reflexivity.
  - exists w. split; [now apply Hnone | split; [exact G | now apply Hnone]].
Qed.
End Session.

(** ** Connecting *)

Section Connect.
Context {Net : Type} (P : Paramiko Net) (L : PyLib).
Local Open Scope gw_scope.

Lemma request_data_dict (req : Request) d (w : World Net) :
  body_fields req = Some d ->
  request_data req w = (Ok (VDict d), w).
Proof.
  unfold body_fields, request_data, bind, lift, ret.
  destruct (req_json req) as [v|e]; [|discriminate].
  destruct (truthy v) eqn:T.
  - destruct v; try discriminate. now intros [= ->].
  - now intros [= <-].
Qed.

Lemma request_data_world (req : Request) (w : World Net) r w1 :
  request_data req w = (r, w1) -> w1 = w.
Proof.
  unfold request_data, bind, lift, ret.
  destruct (req_json req); now intros [= _ <-].
Qed.

Lemma dict_get_world (data : Value) k dflt (w : World Net) r w1 :
  dict_get data k dflt w = (r, w1) -> w1 = w.
Proof.
  unfold dict_get, ret, raise. destruct data; now intros [= _ <-].
Qed.

Lemma new_client_world h p u pw (w : World Net) r w1 :
  new_client L h p u pw w = (r, w1) -> w1 = w.
Proof.
  unfold new_client, bind, lift, ret.
  destruct (int_ L p); now intros [= _ <-].
Qed.

(** What [connect] does, whatever paramiko answers: it creates the SSH
    client, then asks it to connect with the credentials of the
    object; it never raises and it returns [True] or an error text. *)
Lemma connect_runs (self : SFTPClient) (w : World Net) :
  exists r self' w1 c t,
    connect P self w = (Ok (r, self'), w1)
    /\ trace w1 = trace w ++ CNew
                    :: CConnect c (host self) (port self) (username self)
                                (password self) :: t
    /\ sftp_client w1 = sftp_client w
    /\ (r = RTrue \/ exists e, r = RStr (connect_error e)).
Proof.
  unfold connect, bind, try_except, call, ret.
  destruct (ssh_new P (net w)) as [c n0]. cbn [net trace local_fs sftp_client].
  destruct (ssh_connect P c (host self) (port self) (username self)
                        (password self) n0) as [[[]|e] n1];
    cbn [net trace local_fs sftp_client].
  - destruct (ssh_open_sftp P c n1) as [[s|e] n2];
      cbn [net trace local_fs sftp_client].
    + eexists _, _, _, c, [COpenSftp c]. split; [reflexivity|].
      rewrite <- !app_assoc. cbn. auto.
    + eexists _, _, _, c, [COpenSftp c]. split; [reflexivity|].
      rewrite <- !app_assoc. cbn. eauto.
  - eexists _, _, _, c, []. split; [reflexivity|].
    rewrite <- !app_assoc. cbn. eauto.
Qed.

(** The route on a JSON object: the four fields are read, the check
    comes next, and only then is anything done. *)
Lemma connect_route_dict (req : Request) d (w : World Net) :
  body_fields req = Some d ->
  connect_route P L req w =
  (if negb (truthy (dget d "host" VNone))
      || negb (truthy (dget d "username" VNone))
      || match dget d "password" VNone with VNone => true | _ => false end
   then ret rejected
   else
     g <- get_global ;;
     match g with
     | Some old => suppress (close P old)
     | None => ret tt
     end ;;;
     self <- new_client L (dget d "host" VNone) (dget d "port" (VInt 22))
                          (dget d "username" VNone) (dget d "password" VNone) ;;
     set_global (Some self) ;;;
     r <- connect P self ;;
     match r with
     | (RTrue, self') =>
         set_global (Some self') ;;;
         ret (Jsonify 200 true (Message (RStr (lit "Connected successfully"))))
     | (res, _) =>
         set_global None ;;;
         ret (Jsonify 500 false (Message res))
     end) w.
Proof.
  intros H. unfold connect_route.
  rewrite (bind_ok _ _ _ _ _ (request_data_dict req d w H)).
  reflexivity.
Qed.
(** C10.  On a request whose JSON body is an object (or is falsy, which
    the route reads as an object without fields):
    - if [host] or [username] is absent or the empty string, or there is
      no [password] field, the answer is the 400 rejection and the world
      is left as it was: no session was closed and nothing was sent to
      paramiko;
    - with a [host] and a [username] that pass, an empty-string password
      passes too, and the connection attempt is made with that password
      (the port being one [int] accepts). *)
Theorem connect_validation (req : Request) (d : list (str * Value))
        (w : World Net) :
  body_fields req = Some d ->
  ((assoc (lit "host") d = None \/ assoc (lit "host") d = Some (VStr [])
    \/ assoc (lit "username") d = None
    \/ assoc (lit "username") d = Some (VStr [])
    \/ assoc (lit "password") d = None) ->
   connect_route P L req w = (Ok rejected, w))
  /\
  (forall h u n,
      assoc (lit "host") d = Some h -> truthy h = true ->
      assoc (lit "username") d = Some u -> truthy u = true ->
      assoc (lit "password") d = Some (VStr []) ->
      int_ L (dget d "port" (VInt 22)) = Ok n ->
      exists resp w1 c,
        connect_route P L req w = (Ok resp, w1)
        /\ resp <> rejected
        /\ In (CConnect c h n u (VStr [])) (trace w1)).
Proof.
  intros Hd. split.
  - intros H. rewrite (connect_route_dict req d w Hd).
    assert (C : negb (truthy (dget d "host" VNone))
                || negb (truthy (dget d "username" VNone))
                || match dget d "password" VNone with
                   | VNone => true
                   | _ => false
                   end = true).
    { unfold dget.
      destruct H as [H|[H|[H|[H|H]]]]; rewrite H;
        cbn [truthy truthy_str negb orb];
        rewrite ?orb_true_r; reflexivity. }
    rewrite C. reflexivity.
  - intros h u n Hh Th Hu Tu Hp Hn.
    rewrite (connect_route_dict req d w Hd).
    assert (Eh : dget d "host" VNone = h) by (unfold dget; now rewrite Hh).
    assert (Eu : dget d "username" VNone = u) by (unfold dget; now rewrite Hu).
    assert (Ep : dget d "password" VNone = VStr [])
      by (unfold dget; now rewrite Hp).
    rewrite Eh, Eu, Ep, Th, Tu. cbn [negb orb].
    unfold bind at 1. unfold get_global at 1.
    assert (Hclose : exists w0,
               (match sftp_client w with
                | Some old => suppress (close P old)
                | None => ret tt
                end) w = (Ok tt, w0)).
    { destruct (sftp_client w) as [old|].
      - destruct (suppress_close_ok P old w) as (w0 & E & _). eauto.
      - eexists. reflexivity. }
    destruct Hclose as [w0 E0].
    rewrite (bind_ok _ _ _ _ _ E0).
    unfold new_client. unfold bind at 1. unfold bind at 1. unfold lift at 1.
    rewrite Hn. unfold ret at 1.
    unfold bind at 1. unfold set_global at 1.
    set (self := mkClient h n u (VStr []) None None).
    set (w0' := mkWorld (net w0) (local_fs w0) (trace w0) (Some self)).
    destruct (connect_runs self w0') as (r & self' & w1 & c & t & E & T & _ & R).
    rewrite (bind_ok _ _ _ _ _ E).
    destruct R as [->|[e ->]].
    + eexists _, _, c. split; [reflexivity|]. split; [discriminate|].
      cbn. rewrite T. apply in_or_app. right. right. left. reflexivity.
    + eexists _, _, c. split; [reflexivity|]. split; [discriminate|].
      cbn. rewrite T. apply in_or_app. right. right. left. reflexivity.
Qed.



End Connect.

(** ** Path utilities: [_join_path] *)

Lemma squeeze_cons (c : Z) (t : str) :
  squeeze_slashes (c :: t) =
  match t with
  | d :: _ => if (c =? slash) && (d =? slash)
              then squeeze_slashes t else c :: squeeze_slashes t
  | [] => [c]
  end.
Proof. destruct t; reflexivity. Qed.

Lemma replace_dslash_head (s : str) :
  hd_error (replace_dslash s) = hd_error s.
Proof.
  destruct s as [|c1 [|c2 r2]]; simpl; try reflexivity.
  destruct ((c1 =? slash) && (c2 =? slash)) eqn:E; simpl; try reflexivity.
  apply andb_true_iff in E as [E _]. apply Z.eqb_eq in E. now subst.
Qed.

Lemma squeeze_cons_congr (c : Z) (s t : str) :
  hd_error s = hd_error t ->
  squeeze_slashes s = squeeze_slashes t ->
  squeeze_slashes (c :: s) = squeeze_slashes (c :: t).
Proof.
  intros Hh Hs. rewrite !squeeze_cons.
  destruct s as [|a s], t as [|b t]; simpl in Hh; try discriminate; auto.
  injection Hh as ->. now rewrite Hs.
Qed.

Lemma replace_dslash_cons (c1 c2 : Z) (r2 : str) :
  replace_dslash (c1 :: c2 :: r2) =
  if (c1 =? slash) && (c2 =? slash)
  then slash :: replace_dslash r2
  else c1 :: replace_dslash (c2 :: r2).
Proof. reflexivity. Qed.

Lemma squeeze_replace_dslash (s : str) :
  squeeze_slashes (replace_dslash s) = squeeze_slashes s.
Proof.
  remember (length s) as n eqn:Hn.
  revert s Hn. induction n as [n IH] using lt_wf_ind. intros s Hn.
  destruct s as [|c1 [|c2 r2]]; try reflexivity.
  rewrite replace_dslash_cons.
  destruct ((c1 =? slash) && (c2 =? slash)) eqn:E.
  - rewrite (squeeze_cons c1 (c2 :: r2)), E.
    apply andb_true_iff in E as [_ E2]. apply Z.eqb_eq in E2. subst c2.
    apply squeeze_cons_congr.
    + apply replace_dslash_head.
    + apply (IH (length r2)); [simpl in Hn; lia | reflexivity].
  - apply squeeze_cons_congr.
    + apply replace_dslash_head.
    + apply (IH (length (c2 :: r2))); [simpl in *; lia | reflexivity].
Qed.

Lemma squeeze_no_dslash (s : str) :
  has_dslash s = false -> squeeze_slashes s = s.
Proof.
  induction s as [|c1 r1 IH]; [reflexivity|].
  intros H. rewrite squeeze_cons. destruct r1 as [|c2 r2]; [reflexivity|].
  cbn [has_dslash] in H. apply orb_false_iff in H as [E H].
  rewrite E. now rewrite IH.
Qed.

Lemma collapse_loop_squeeze (path : str) :
  collapse_loop path = squeeze_slashes path.
Proof.
  funelim (collapse_loop path).
  - rewrite H0. apply squeeze_replace_dslash.
  - symmetry. now apply squeeze_no_dslash.
Qed.

Lemma has_dslash_cons (c : Z) (t : str) :
  has_dslash (c :: t) =
  match t with
  | d :: _ => ((c =? slash) && (d =? slash)) || has_dslash t
  | [] => false
  end.
Proof. destruct t; reflexivity. Qed.

Lemma has_dslash_squeeze (s : str) : has_dslash (squeeze_slashes s) = false.
Proof.
  induction s as [|c1 r1 IH]; [reflexivity|].
  rewrite squeeze_cons. destruct r1 as [|c2 r2]; [reflexivity|].
  destruct ((c1 =? slash) && (c2 =? slash)) eqn:E; [exact IH|].
  remember (squeeze_slashes (c2 :: r2)) as t eqn:Ht.
  assert (Hh : hd_error t = Some c2 \/ (c2 = slash /\ hd_error t = Some slash)).
  { subst t. clear. revert c2. induction r2 as [|c3 r3 IH3]; intros c2.
    - left. reflexivity.
    - rewrite squeeze_cons.
      destruct ((c2 =? slash) && (c3 =? slash)) eqn:E.
      + apply andb_true_iff in E as [E2 E3].
        apply Z.eqb_eq in E2. apply Z.eqb_eq in E3. subst.
        right. split; [reflexivity|].
        destruct (IH3 slash) as [H|[_ H]]; exact H.
      + left. reflexivity. }
  rewrite has_dslash_cons, IH.
  destruct t as [|d t']; [reflexivity|]. rewrite orb_false_r.
  destruct Hh as [Hh|[Hc Hh]]; simpl in Hh; injection Hh as ->.
  - exact E.
  - subst c2. exact E.
Qed.

Lemma join_path_clean (parts : list str) :
  has_dslash (_join_path parts) = false.
Proof.
  unfold _join_path. rewrite collapse_loop_squeeze. apply has_dslash_squeeze.
Qed.

(** C7.  [_join_path] returns the parts joined with ["/"] in which every
    run of slashes, also one that sits inside a part, is reduced to a
    single slash; no ["//"] is left in the result, which is the exit
    condition of the loop.  The function is defined by recursion on the
    length of the string, so it has a value for every input. *)
Theorem join_path_collapses (parts : list str) :
  _join_path parts = squeeze_slashes (join (lit "/") parts)
  /\ has_dslash (_join_path parts) = false.
Proof.
  unfold _join_path. rewrite collapse_loop_squeeze.
  split; [reflexivity | apply has_dslash_squeeze].
Qed.

(** ** Sorting *)

Section SortFacts.
Context {A K : Type} (key : A -> K) (ltb : K -> K -> bool).
Hypothesis ltb_irrefl : forall k, ltb k k = false.
Hypothesis ltb_trans :
  forall a b c, ltb a b = true -> ltb b c = true -> ltb a c = true.
Hypothesis ltb_total :
  forall a b, ltb a b = false -> ltb b a = false -> a = b.

Lemma ltb_asym a b : ltb a b = true -> ltb b a = false.
Proof.
  intros H. destruct (ltb b a) eqn:E; [|reflexivity].
  pose proof (ltb_trans _ _ _ H E) as C. now rewrite ltb_irrefl in C.
Qed.

Lemma ltb_neg_trans a b c :
  ltb b a = false -> ltb c b = false -> ltb c a = false.
Proof.
  intros H1 H2. destruct (ltb c a) eqn:E; [|reflexivity].
  destruct (ltb a b) eqn:E1.
  - pose proof (ltb_trans _ _ _ E E1) as C. congruence.
  - pose proof (ltb_total _ _ E1 H1) as ->. congruence.
Qed.

Lemma le_by_trans x y z : le_by key ltb x y -> le_by key ltb y z -> le_by key ltb x z.
Proof. unfold le_by. intros H1 H2. eapply ltb_neg_trans; eassumption. Qed.

Lemma insert_by_perm x l : Permutation (insert_by key ltb x l) (x :: l).
Proof.
  induction l as [|y l IH]; cbn; [reflexivity|].
  destruct (ltb (key y) (key x)); [|reflexivity].
  rewrite IH. apply perm_swap.
Qed.

Lemma sort_by_perm l : Permutation (sort_by key ltb l) l.
Proof.
  induction l as [|x l IH]; cbn; [reflexivity|].
  rewrite insert_by_perm. now constructor.
Qed.

Lemma insert_by_sorted x l :
  StronglySorted (le_by key ltb) l -> StronglySorted (le_by key ltb) (insert_by key ltb x l).
Proof.
  induction 1 as [|y l Hs IH Hy]; cbn.
  - constructor; constructor.
  - destruct (ltb (key y) (key x)) eqn:E.
    + constructor; [exact IH|].
      rewrite insert_by_perm. constructor; [|exact Hy].
      unfold le_by. now apply ltb_asym.
    + constructor; [now constructor|].
      constructor; [exact E|].
      eapply Forall_impl; [exact Hy|].
      intros z Hz. eapply le_by_trans; [exact E | exact Hz].
Qed.

Lemma sort_by_sorted l : StronglySorted (le_by key ltb) (sort_by key ltb l).
Proof.
  induction l as [|x l IH]; cbn; [constructor | now apply insert_by_sorted].
Qed.

Lemma insert_by_stable k x l :
  List.filter (same_key key ltb k) (insert_by key ltb x l)
  = List.filter (same_key key ltb k) (x :: l).
Proof.
  induction l as [|y l IH]; [reflexivity|].
  cbn [insert_by]. destruct (ltb (key y) (key x)) eqn:E; [|reflexivity].
  cbn [List.filter] in *. rewrite IH.
  destruct (same_key key ltb k y) eqn:Ey, (same_key key ltb k x) eqn:Ex; try reflexivity.
  exfalso. unfold same_key in Ey, Ex.
  apply andb_true_iff in Ey as [Ey1 Ey2]. apply andb_true_iff in Ex as [Ex1 Ex2].
  apply negb_true_iff in Ey1, Ey2, Ex1, Ex2.
  pose proof (ltb_total _ _ Ey1 Ey2) as Hy.
  pose proof (ltb_total _ _ Ex1 Ex2) as Hx.
  rewrite Hy, Hx, ltb_irrefl in E. discriminate.
Qed.

Lemma sort_by_stable k l :
  List.filter (same_key key ltb k) (sort_by key ltb l) = List.filter (same_key key ltb k) l.
Proof.
  induction l as [|x l IH]; [reflexivity|].
  cbn [sort_by List.fold_right]. rewrite insert_by_stable.
  cbn [List.filter]. fold (sort_by key ltb l). now rewrite IH.
Qed.

Lemma key_inj_of_NoDup l x y :
  NoDup (List.map key l) -> In x l -> In y l -> key x = key y -> x = y.
Proof.
  induction l as [|z l IH]; cbn; [tauto|].
  intros Hnd Hx Hy E. apply NoDup_cons in Hnd as [Hz Hnd].
  destruct Hx as [->|Hx], Hy as [->|Hy]; auto.
  - exfalso. apply Hz. rewrite E. apply list_elem_of_In. now apply in_map.
  - exfalso. apply Hz. rewrite <- E. apply list_elem_of_In. now apply in_map.
Qed.

(** With pairwise distinct keys the order of the input does not show in
    the result. *)
Lemma sort_by_unique l1 l2 :
  Permutation l1 l2 -> NoDup (List.map key l1) ->
  sort_by key ltb l1 = sort_by key ltb l2.
Proof.
  intros Hp Hnd.
  apply (StronglySorted_unique_strong (le_by key ltb));
    [| apply sort_by_sorted | apply sort_by_sorted
     | now rewrite !sort_by_perm].
  intros x1 x2 H1 H2 L1 L2.
  apply (key_inj_of_NoDup l1); [exact Hnd | | |].
  - apply list_elem_of_In in H1. eapply Permutation_in; [apply sort_by_perm|].
    exact H1.
  - apply list_elem_of_In in H2. eapply Permutation_in; [symmetry; exact Hp|].
    eapply Permutation_in; [apply sort_by_perm|]. exact H2.
  - unfold le_by in L1, L2. symmetry. now apply ltb_total.
Qed.
End SortFacts.

(** The order of [str] and of the tuples used as sort keys. *)

Lemma str_ltb_irrefl (a : str) : str_ltb a a = false.
Proof.
  induction a as [|x a IH]; [reflexivity|].
  cbn. rewrite Z.ltb_irrefl, Z.eqb_refl, IH. reflexivity.
Qed.

Lemma str_ltb_trans (a b c : str) :
  str_ltb a b = true -> str_ltb b c = true -> str_ltb a c = true.
Proof.
  revert b c. induction a as [|x a IH]; intros [|y b] [|z c]; cbn;
    try discriminate; try reflexivity.
  intros H1 H2.
  apply orb_true_iff in H1 as [H1|H1]; apply orb_true_iff in H2 as [H2|H2];
    apply orb_true_iff.
  - left. apply Z.ltb_lt in H1, H2. apply Z.ltb_lt. lia.
  - apply andb_true_iff in H2 as [H2 _]. apply Z.eqb_eq in H2. subst. now left.
  - apply andb_true_iff in H1 as [H1 _]. apply Z.eqb_eq in H1. subst. now left.
  - apply andb_true_iff in H1 as [E1 H1]. apply andb_true_iff in H2 as [E2 H2].
    apply Z.eqb_eq in E1, E2. subst. right.
    rewrite Z.eqb_refl. cbn. now apply (IH b c).
Qed.

Lemma str_ltb_total (a b : str) :
  str_ltb a b = false -> str_ltb b a = false -> a = b.
Proof.
  revert b. induction a as [|x a IH]; intros [|y b]; cbn;
    try discriminate; try reflexivity.
  intros H1 H2.
  apply orb_false_iff in H1 as [L1 H1]. apply orb_false_iff in H2 as [L2 H2].
  apply Z.ltb_ge in L1, L2. assert (x = y) by lia. subst y.
  rewrite Z.eqb_refl in H1, H2. cbn in H1, H2.
  f_equal. now apply IH.
Qed.

Lemma key_ltb_irrefl (k : bool * str) : key_ltb k k = false.
Proof. destruct k as [[] s]; cbn; apply str_ltb_irrefl. Qed.

Lemma key_ltb_trans (a b c : bool * str) :
  key_ltb a b = true -> key_ltb b c = true -> key_ltb a c = true.
Proof.
  destruct a as [[] a], b as [[] b], c as [[] c]; cbn;
    try discriminate; try reflexivity; apply str_ltb_trans.
Qed.

Lemma key_ltb_total (a b : bool * str) :
  key_ltb a b = false -> key_ltb b a = false -> a = b.
Proof.
  destruct a as [[] a], b as [[] b]; cbn; try discriminate;
    intros H1 H2; f_equal; now apply str_ltb_total.
Qed.

(** ** Listing *)

Section Listing.
Context {Net : Type} (P : Paramiko Net) (L : PyLib).
Local Open Scope gw_scope.

Lemma le_by_listed_before (a b : Item) :
  le_by (sort_key L) key_ltb a b <-> listed_before L a b.
Proof.
  unfold le_by, listed_before, sort_key, key_ltb. cbn.
  destruct (is_dir a), (is_dir b); cbn; intuition congruence.
Qed.

Lemma build_items_ok (p : str) (attrs : list SFTPAttributes) entries :
  build_items p attrs = Ok entries <->
  Forall (fun a => is_Some (st_mode a)) attrs
  /\ entries = List.map (entry_of p) attrs.
Proof.
  revert entries. induction attrs as [|a attrs IH]; intros entries; cbn.
  - split.
    + intros [= <-]. split; [constructor | reflexivity].
    + intros [_ ->]. reflexivity.
  - unfold entry_of at 1. destruct (st_mode a) as [m|] eqn:Em; cbn.
    + destruct (build_items p attrs) as [items|e] eqn:Eb.
      * destruct (proj1 (IH items) eq_refl) as [Hall ->]. split.
        -- intros [= <-]. split; [|reflexivity].
           constructor; [rewrite Em; eauto | exact Hall].
        -- intros [_ ->]. reflexivity.
      * split; [discriminate|]. intros [Hall ->].
        apply Forall_cons in Hall as [_ Hall].
        pose proof (proj2 (IH _) (conj Hall eq_refl)). discriminate.
    + split; [discriminate|]. intros [Hall _].
      apply Forall_cons in Hall as [[m Hm] _]. congruence.
Qed.

(** A listing that succeeds is the sorted list of the entries built
    from what paramiko returned. *)
Lemma listdir_inv (self : SFTPClient) (p : str) (w : World Net) items :
  fst (listdir P L self p w) = Ok (RList items) ->
  exists s attrs n1 entries,
    sftp self = Some s
    /\ sftp_listdir_attr P s (VStr p) (net w) = (Ok attrs, n1)
    /\ build_items p attrs = Ok entries
    /\ items = sort_by (sort_key L) key_ltb entries.
Proof.
  unfold listdir, try_except, bind, the_sftp, call, lift, ret, raise.
  destruct (sftp self) as [s|]; [|cbn; try case_match; discriminate].
  destruct (sftp_listdir_attr P s (VStr p) (net w)) as [[attrs|e] n1] eqn:E;
    [|cbn; try case_match; discriminate].
  destruct (build_items p attrs) as [entries|e] eqn:Eb;
    [|cbn; try case_match; discriminate].
  cbn. intros [= <-]. eauto 10.
Qed.

Lemma listdir_run (self : SFTPClient) (p : str) (w : World Net)
      s attrs n1 entries :
  sftp self = Some s ->
  sftp_listdir_attr P s (VStr p) (net w) = (Ok attrs, n1) ->
  build_items p attrs = Ok entries ->
  fst (listdir P L self p w) = Ok (RList (sort_by (sort_key L) key_ltb entries)).
Proof.
  intros Hs Ha Hb.
  unfold listdir, try_except, bind, the_sftp, call, lift, ret.
  rewrite Hs, Ha, Hb. reflexivity.
Qed.
Lemma StronglySorted_weaken {A} (R1 R2 : A -> A -> Prop) (l : list A) :
  (forall x y, R1 x y -> R2 x y) -> StronglySorted R1 l -> StronglySorted R2 l.
Proof.
  intros HR. induction 1 as [|x l Hs IH Hx]; constructor; [exact IH|].
  eapply Forall_impl; [exact Hx|]. intros y. apply HR.
Qed.

(** C2, as the program has it.  Whatever order paramiko returns the
    entries in, a listing that succeeds holds exactly those entries,
    directories before files and, within each kind, by name compared
    without regard to case; entries that tie (same kind, same name up
    to case) keep the order paramiko returned them in.  When no two
    entries tie, any other order of the same entries gives the same
    listing. *)
Theorem listdir_sorted_stable
        (self : SFTPClient) (p : str) (w : World Net) (items : list Item) :
  fst (listdir P L self p w) = Ok (RList items) ->
  exists s attrs n1,
    sftp self = Some s
    /\ sftp_listdir_attr P s (VStr p) (net w) = (Ok attrs, n1)
    /\ Permutation items (List.map (entry_of p) attrs)
    /\ StronglySorted (listed_before L) items
    /\ (forall k, List.filter (ties_with L k) items
                  = List.filter (ties_with L k) (List.map (entry_of p) attrs))
    /\ (forall w2 attrs2 n2,
          sftp_listdir_attr P s (VStr p) (net w2) = (Ok attrs2, n2) ->
          Permutation attrs attrs2 ->
          NoDup (List.map (sort_key L) (List.map (entry_of p) attrs)) ->
          fst (listdir P L self p w2) = Ok (RList items)).
Proof.
  intros H.
  apply listdir_inv in H as (s & attrs & n1 & entries & Hs & Ha & Hb & ->).
  apply build_items_ok in Hb as [Hall ->].
  exists s, attrs, n1. repeat split; try assumption.
  - apply sort_by_perm.
  - eapply StronglySorted_weaken; [apply le_by_listed_before|].
    apply sort_by_sorted;
      [apply key_ltb_irrefl | apply key_ltb_trans | apply key_ltb_total].
  - intros k. apply sort_by_stable; [apply key_ltb_irrefl | apply key_ltb_total].
  - intros w2 attrs2 n2 Ha2 Hp Hnd.
    rewrite (listdir_run self p w2 s attrs2 n2 (List.map (entry_of p) attrs2)
                         Hs Ha2).
    + do 2 f_equal. symmetry.
      apply sort_by_unique;
        [apply key_ltb_irrefl | apply key_ltb_trans | apply key_ltb_total
         | now apply Permutation_map | exact Hnd].
    + apply build_items_ok. split; [|reflexivity].
      eapply Permutation_Forall; [exact Hp | exact Hall].
Qed.
End Listing.

(** ** Removing *)

Section Remove.
Context {Net : Type} (P : Paramiko Net) (L : PyLib).
Local Open Scope gw_scope.

(** X19.  [remove] asks for the attributes of the
    path first, and that is its only call when the answer is an
    exception or carries no mode; an [OSError] there (an absent path is
    a [FileNotFoundError]) is reported as "Path not found".  With a mode
    in hand exactly one more call follows: [rmdir] for a directory,
    [remove] for anything else.  When that call raises, the report is
    "Permission denied" for a [PermissionError]; for any other [OSError]
    it is "Directory not empty" if the lower-cased text of the error
    contains "not empty", and the text of the error as it came
    otherwise. *)
Theorem remove_inspects_type
        (self : SFTPClient) (s : handle) (p : Value) (w : World Net) :
  sftp self = Some s ->
  exists r w1 rs n1,
    remove P L self p w = (Ok r, w1)
    /\ sftp_stat P s p (net w) = (rs, n1)
    /\ match rs with
       | Raise e =>
           trace w1 = trace w ++ [CStat s p]
           /\ (is_OSError e = true ->
               r = RStr (lit "Error: Path not found: " ++ fmt L p))
       | Ok st =>
           match st_mode st with
           | None => trace w1 = trace w ++ [CStat s p]
           | Some m =>
               exists rd n2,
                 (if S_ISDIR m then sftp_rmdir P s p n1
                  else sftp_remove P s p n1) = (rd, n2)
                 /\ trace w1
                    = trace w ++ [CStat s p;
                                  if S_ISDIR m then CRmdir s p else CRemove s p]
                 /\ match rd with
                    | Ok _ => r = RTrue
                    | Raise e =>
                        (exn_class e = PermissionError ->
                         r = RStr (lit "Error: Permission denied: " ++ fmt L p))
                        /\ (is_OSError e = true ->
                            exn_class e <> PermissionError ->
                            r = RStr
                                  (if contains (lower L (exn_text e))
                                               (lit "not empty")
                                   then lit "Error: Directory not empty: "
                                            ++ fmt L p
                                   else lit "Error: " ++ exn_text e))
                    end
           end
       end.
Proof.
  intros Hs.
  unfold remove, try_except, bind, the_sftp, call, lift, ret, raise.
  rewrite Hs. cbn [net local_fs trace sftp_client].
  destruct (sftp_stat P s p (net w)) as [[st|e] n1] eqn:Es.
  - cbn [net local_fs trace sftp_client].
    destruct (st_mode st) as [m|] eqn:Em; cbn [S_ISDIR_of].
    + destruct (S_ISDIR m) eqn:Ed; cbn [net local_fs trace sftp_client].
      * destruct (sftp_rmdir P s p n1) as [[[]|e] n2] eqn:Er;
          cbn [net local_fs trace sftp_client];
          eexists _, _, _, _; (split; [reflexivity|]); (split; [reflexivity|]);
          cbv beta iota; rewrite Em; eexists _, _; rewrite Ed;
          (split; [exact Er|]); cbn [trace]; rewrite <- app_assoc;
          (split; [reflexivity|]); [reflexivity|].
        unfold remove_error. split.
        -- now intros ->.
        -- intros Ho Hc. rewrite Ho. destruct (exn_class e); congruence.
      * destruct (sftp_remove P s p n1) as [[[]|e] n2] eqn:Er;
          cbn [net local_fs trace sftp_client];
          eexists _, _, _, _; (split; [reflexivity|]); (split; [reflexivity|]);
          cbv beta iota; rewrite Em; eexists _, _; rewrite Ed;
          (split; [exact Er|]); cbn [trace]; rewrite <- app_assoc;
          (split; [reflexivity|]); [reflexivity|].
        unfold remove_error. split.
        -- now intros ->.
        -- intros Ho Hc. rewrite Ho. destruct (exn_class e); congruence.
    + eexists _, _, _, _. split; [reflexivity|]. split; [reflexivity|].
      cbv beta iota. rewrite Em. reflexivity.
  - cbn [net local_fs trace sftp_client].
    destruct (is_OSError e) eqn:Eo; cbn [net local_fs trace sftp_client];
      eexists _, _, _, _; (split; [reflexivity|]); (split; [reflexivity|]);
      (split; [reflexivity|]); intros; first [reflexivity | congruence].
Qed.
End Remove.

(** ** Downloading *)

Section Download.
Context {Net : Type} (P : Paramiko Net) (L : PyLib).
Local Open Scope gw_scope.

(** C6.  A download request for a path that [stat] reports as a
    directory, in a session and with a free name for the staging file:
    - [download_to_local], run on the freshly made empty staging file,
      reports "'path' is a directory" after the one [stat] call, with
      the staging file still empty: nothing was fetched;
    - the route answers with that report and status 500, and the local
      files after the request are the local files before it: the staging
      file is gone.  The trace holds the [stat] call and no [get]. *)
Theorem download_directory_refused
        (req : Request) (p : str) (w : World Net)
        (c : SFTPClient) (s : handle) (st : SFTPAttributes) (n1 : Net) (m : Z) :
  sftp_client w = Some c ->
  sftp c = Some s ->
  arg req "path" = Some p ->
  truthy_str p = true ->
  local_fs w !! tmp_name L (local_fs w) = None ->
  sftp_stat P s (VStr p) (net w) = (Ok st, n1) ->
  st_mode st = Some m ->
  S_ISDIR m = true ->
  let tmp := tmp_name L (local_fs w) in
  let staged := <[tmp := []]> (local_fs w) in
  let report := RStr (lit "Error: '" ++ p ++ lit "' is a directory") in
  download_to_local P c p tmp
                    (mkWorld (net w) staged (trace w) (sftp_client w))
  = (Ok report,
     mkWorld n1 staged (trace w ++ [CStat s (VStr p)]) (sftp_client w))
  /\ api_download P L req w
     = (Ok (Jsonify 500 false (Message report)),
        mkWorld n1 (local_fs w) (trace w ++ [CStat s (VStr p)])
                (sftp_client w)).
Proof.
  intros Hg Hs Hp Ht Hfree Hstat Hm Hd. cbv zeta.
  set (tmp := tmp_name L (local_fs w)) in *.
  set (report := RStr (lit "Error: '" ++ p ++ lit "' is a directory")).
  assert (D : download_to_local P c p tmp
                (mkWorld (net w) (<[tmp := []]> (local_fs w)) (trace w)
                         (sftp_client w))
              = (Ok report,
                 mkWorld n1 (<[tmp := []]> (local_fs w))
                         (trace w ++ [CStat s (VStr p)]) (sftp_client w))).
  { unfold download_to_local, try_except, bind, the_sftp, call, lift, ret.
    rewrite Hs. cbn [net local_fs trace sftp_client].
    rewrite Hstat. cbn [net local_fs trace sftp_client].
    rewrite Hm. cbn [S_ISDIR_of]. rewrite Hd. reflexivity. }
  split; [exact D|].
  unfold api_download, bind at 1, get_global at 1.
  rewrite Hg, Hp, Ht.
  unfold bind at 1, mkstemp at 1. fold tmp. rewrite Hfree.
  rewrite (bind_ok _ _ _ _ _ D). unfold report at 1.
  unfold bind, suppress, try_except, os_remove, ret, failed.
  cbn [net local_fs trace sftp_client].
  rewrite lookup_insert_eq, delete_insert_eq, (delete_id _ _ Hfree), Hg.
  reflexivity.
Qed.
End Download.

(** ** Text through UTF-8 *)

Ltac zdm := Z.div_mod_to_equations; lia.

(** Decides the comparisons of a goal one after the other. *)
Ltac settle_tests :=
  repeat match goal with
         | |- context [?a <? ?b] =>
             first [ rewrite (proj2 (Z.ltb_lt a b)) by zdm
                   | rewrite (proj2 (Z.ltb_ge a b)) by zdm ]
         | |- context [?a <=? ?b] =>
             first [ rewrite (proj2 (Z.leb_le a b)) by zdm
                   | rewrite (proj2 (Z.leb_gt a b)) by zdm ]
         | |- context [?a =? ?b] =>
             first [ rewrite (proj2 (Z.eqb_eq a b)) by zdm
                   | rewrite (proj2 (Z.eqb_neq a b)) by zdm ]
         end.

Lemma div_4096 (c : Z) : c / 4096 = c / 64 / 64.
Proof. rewrite Zdiv.Zdiv_Zdiv by lia. reflexivity. Qed.

Lemma div_262144 (c : Z) : c / 262144 = c / 64 / 64 / 64.
Proof. rewrite !Zdiv.Zdiv_Zdiv by lia. reflexivity. Qed.

(** A comparison that the hypotheses leave open is split, and the
    tests that depend on it are decided in each case. *)
Ltac split_tests :=
  repeat (match goal with
          | |- context [?a <? ?b] => destruct (Z.ltb_spec a b)
          end; settle_tests).

Lemma decode_encode_cp (c : Z) (b rest : bytes) :
  Utf8.encode_cp c = Some b ->
  Utf8.decode (b ++ rest) = Some c :: Utf8.decode rest.
Proof.
  unfold Utf8.encode_cp.
  destruct (Z.ltb_spec c 0); [discriminate|].
  destruct (Z.ltb_spec c 128).
  { intros [= <-]. cbn [app Utf8.decode]. settle_tests. reflexivity. }
  destruct (Z.ltb_spec c 2048).
  { intros [= <-]. cbn [app Utf8.decode]. unfold Utf8.is_cont.
    settle_tests. cbn [andb]. f_equal. f_equal. zdm. }
  destruct (Z.leb_spec 55296 c); destruct (Z.leb_spec c 57343);
    cbn [andb]; try discriminate.
  - destruct (Z.ltb_spec c 65536).
    + intros [= <-]. rewrite ?div_262144, ?div_4096.
      cbn [app Utf8.decode]. unfold Utf8.is_cont.
      settle_tests. split_tests; cbn [andb negb orb];
        f_equal; f_equal; zdm.
    + destruct (Z.ltb_spec c 1114112); [|discriminate].
      intros [= <-]. rewrite ?div_262144, ?div_4096.
      cbn [app Utf8.decode]. unfold Utf8.is_cont.
      settle_tests. split_tests; cbn [andb negb orb];
        f_equal; f_equal; zdm.
  - destruct (Z.ltb_spec c 65536); [|lia].
    intros [= <-]. rewrite ?div_262144, ?div_4096.
    cbn [app Utf8.decode]. unfold Utf8.is_cont.
    settle_tests. split_tests; cbn [andb negb orb];
      f_equal; f_equal; zdm.
  - lia.
Qed.

Lemma decode_encode (s : str) (data : bytes) :
  Utf8.encode s = Some data -> Utf8.decode data = List.map Some s.
Proof.
  revert data. induction s as [|c s IH]; intros data; cbn.
  - intros [= <-]. reflexivity.
  - destruct (Utf8.encode_cp c) as [b|] eqn:Ec; [|discriminate].
    destruct (Utf8.encode s) as [bs|] eqn:Es; [|discriminate].
    intros [= <-]. rewrite (decode_encode_cp c b bs Ec), (IH bs eq_refl).
    reflexivity.
Qed.

(** Text that could be encoded comes back unchanged, whichever of the
    two decoders reads it. *)
Lemma decode_replace_encode (s : str) (data : bytes) :
  Utf8.encode s = Some data -> Utf8.decode_replace data = s.
Proof.
  intros H. unfold Utf8.decode_replace. rewrite (decode_encode s data H).
  rewrite List.map_map. apply List.map_id.
Qed.

Lemma decode_strict_encode (s : str) (data : bytes) :
  Utf8.encode s = Some data -> Utf8.decode_strict data = Some s.
Proof.
  intros H. unfold Utf8.decode_strict. rewrite (decode_encode s data H).
  clear. induction s as [|c s IH]; cbn; [reflexivity|].
  now rewrite IH.
Qed.

(** ** Reading and writing *)

Section ReadWrite.
Context {Net : Type} (P : Paramiko Net) (L : PyLib).
Local Open Scope gw_scope.

(** A write of text that returned [True] opened the file, wrote the
    UTF-8 encoding of the text and closed the file, all three without an
    exception. *)
Lemma write_file_inv (self : SFTPClient) (p : Value) (content : str)
      (w w1 : World Net) :
  write_file P L self p (VStr content) w = (Ok RTrue, w1) ->
  exists s f data n1 n2 n3,
    sftp self = Some s
    /\ Utf8.encode content = Some data
    /\ sftp_open P s p ModeW (net w) = (Ok f, n1)
    /\ file_write P f data n1 = (Ok tt, n2)
    /\ file_close P f n2 = (Ok tt, n3)
    /\ w1 = mkWorld n3 (local_fs w)
                    (trace w ++ [COpen s p ModeW; CWrite f data; CFileClose f])
                    (sftp_client w).
Proof.
  unfold write_file, try_except, bind, with_open, the_sftp, finally,
    fwrite_str, call, ret, raise, bind.
  destruct (sftp self) as [s|]; [|cbn; discriminate].
  cbn [net local_fs trace sftp_client].
  destruct (sftp_open P s p ModeW (net w)) as [[f|e] n1] eqn:Eo;
    [|cbn; case_match; discriminate].
  cbn [net local_fs trace sftp_client].
  destruct (Utf8.encode content) as [data|].
  - cbn [net local_fs trace sftp_client].
    destruct (file_write P f data n1) as [[[]|e] n2] eqn:Ew;
      cbn [net local_fs trace sftp_client];
      destruct (file_close P f n2) as [[[]|e'] n3] eqn:Ec;
      cbn [net local_fs trace sftp_client];
      try (case_match; discriminate).
    intros [= <-]. exists s, f, data, n1, n2, n3.
    rewrite <- !app_assoc. cbn. auto 10.
  - cbn [net local_fs trace sftp_client].
    destruct (file_close P f n1) as [[[]|e'] n3];
      cbn [net local_fs trace sftp_client]; try case_match; discriminate.
Qed.

(** A read whose three calls went through returns the decoded bytes. *)
Lemma read_file_run (self : SFTPClient) (p : str) (max_bytes : option Z)
      (w : World Net) s f n1 data n2 n3 :
  sftp self = Some s ->
  sftp_open P s (VStr p) ModeRB (net w) = (Ok f, n1) ->
  file_read P f max_bytes n1 = (Ok data, n2) ->
  file_close P f n2 = (Ok tt, n3) ->
  read_file P self p max_bytes w
  = (Ok (RStr (Utf8.decode_replace data)),
     mkWorld n3 (local_fs w)
             (trace w ++ [COpen s (VStr p) ModeRB; CRead f max_bytes;
                          CFileClose f])
             (sftp_client w)).
Proof.
  intros Hs Ho Hr Hc.
  unfold read_file, try_except, with_open, the_sftp, finally, call, ret, bind.
  rewrite Hs. cbn [net local_fs trace sftp_client].
  rewrite Ho. cbn [net local_fs trace sftp_client].
  rewrite Hr. cbn [net local_fs trace sftp_client].
  rewrite Hc. cbn [net local_fs trace sftp_client].
  rewrite <- !app_assoc. reflexivity.
Qed.

(** C3.  Over a store that gives back what it was given: once
    [write_file] has returned [True] for a text, a read of the same
    path without a byte cap, whose calls go through, returns that very
    text.  (Text that cannot be encoded never gets as far as a
    successful write, so nothing is replaced on the way back.) *)
Theorem write_then_read_roundtrip
        (self : SFTPClient) (p content : str) (w w1 : World Net)
        (s f : handle) (n4 n5 n6 : Net) (data : bytes) :
  reads_back P ->
  write_file P L self (VStr p) (VStr content) w = (Ok RTrue, w1) ->
  sftp self = Some s ->
  sftp_open P s (VStr p) ModeRB (net w1) = (Ok f, n4) ->
  file_read P f None n4 = (Ok data, n5) ->
  file_close P f n5 = (Ok tt, n6) ->
  fst (read_file P self p None w1) = Ok (RStr content).
Proof.
  intros Hlaw Hw Hs Ho Hr Hc.
  apply write_file_inv in Hw
    as (s' & f' & data' & n1 & n2 & n3 & Hs' & He & Ho' & Hw' & Hc' & ->).
  rewrite Hs in Hs'. injection Hs' as <-.
  pose proof Ho as Ho2. cbn [net] in Ho2.
  pose proof (Hlaw _ _ _ _ _ _ _ _ _ _ _ _ Ho' Hw' Hc' Ho2 Hr) as ->.
  rewrite (read_file_run self p None _ s f n4 data' n5 n6 Hs Ho Hr Hc).
  cbn [fst]. now rewrite (decode_replace_encode content data' He).
Qed.

(** What the read route makes of a file whose text starts with
    ["Error:"]: the read went through, the answer is a failure. *)
Lemma api_read_error_prefix (req : Request) (p : str) (w : World Net)
      (c : SFTPClient) s f n1 data n2 n3 :
  sftp_client w = Some c ->
  sftp c = Some s ->
  arg req "path" = Some p ->
  truthy_str p = true ->
  arg req "max" = None ->
  sftp_open P s (VStr p) ModeRB (net w) = (Ok f, n1) ->
  file_read P f None n1 = (Ok data, n2) ->
  file_close P f n2 = (Ok tt, n3) ->
  startswith (Utf8.decode_replace data) (lit "Error:") = true ->
  fst (api_read P L req w)
  = Ok (Jsonify 500 false (Message (RStr (Utf8.decode_replace data)))).
Proof.
  intros Hg Hs Hp Ht Hm Ho Hr Hc Hpre.
  unfold api_read, bind at 1, get_global at 1. rewrite Hg, Hp, Ht, Hm.
  unfold bind at 1, ret at 1.
  rewrite (bind_ok _ _ _ _ _ (read_file_run c p None w s f n1 data n2 n3
                                            Hs Ho Hr Hc)).
  rewrite Hpre. reflexivity.
Qed.
End ReadWrite.

Example scenario_connect :
  fst (connect_route Mem.paramiko Lib.pylib
         (json_request [(lit "host", VStr (lit "h")); (lit "port", VInt 22);
                        (lit "username", VStr (lit "u"));
                        (lit "password", VStr (lit "p"))])
         (offline sample_tree))
  = Ok (Jsonify 200 true (Message (RStr (lit "Connected successfully")))).
Proof. vm_compute. reflexivity. Qed.

Example scenario_read :
  fst (api_read Mem.paramiko Lib.pylib
         (get_request [(lit "path", lit "/readme.txt")]) (online sample_tree))
  = Ok (Jsonify 200 true (Content (lit "hello"))).
Proof. vm_compute. reflexivity. Qed.

Example scenario_list_bin :
  fst (api_list Mem.paramiko Lib.pylib
         (get_request [(lit "path", lit "/bin")]) (online sample_tree))
  = Ok (Jsonify 200 true
          (Items [mkItem (lit "ls") (lit "/bin/ls") false (Some 4) (Some 0)])).
Proof. vm_compute. reflexivity. Qed.

(** ** The in-memory server gives back what it was given *)

Lemma mem_get_put (q : str) (v : Mem.Node) (t : list (str * Mem.Node)) :
  Mem.get q (Mem.put q v t) = Some v.
Proof.
  induction t as [|[k v'] t IH]; cbn.
  - unfold str_eqb. now rewrite bool_decide_eq_true_2.
  - destruct (str_eqb k q) eqn:E; cbn; rewrite E; [reflexivity | exact IH].
Qed.

Lemma mem_reads_back : reads_back Mem.paramiko.
Proof.
  intros s p data f n0 n1 n2 n3 f' n4 data' n5.
  cbn [sftp_open file_write file_close file_read Mem.paramiko].
  destruct p as [| | |q| | |]; try (cbn; discriminate).
  unfold Mem.m_open at 1. cbn [Mem.on_path]. unfold Mem.node_at.
  destruct (str_eqb q (lit "/")) eqn:Eroot; [discriminate|].
  intros Hopen.
  assert (Hn1 : f = Mem.next n0
                /\ n1 = Mem.mkState (Mem.put q (Mem.File []) (Mem.tree n0))
                                    ((Mem.next n0, q) :: Mem.opened n0)
                                    (S (Mem.next n0)) (Mem.accounts n0)).
  { destruct (Mem.get q (Mem.tree n0)) as [[d|]|]; try discriminate;
      injection Hopen as <- <-; split; reflexivity. }
  destruct Hn1 as [-> ->]. clear Hopen.
  unfold Mem.m_write. cbn [Mem.opened Mem.tree Mem.path_of].
  rewrite Nat.eqb_refl, mem_get_put. cbn [app].
  intros [= <-].
  unfold Mem.m_close_file. intros [= <-].
  unfold Mem.m_open. cbn [Mem.on_path Mem.tree Mem.with_tree]. unfold Mem.node_at.
  rewrite Eroot, mem_get_put. intros [= <- <-].
  unfold Mem.m_read. cbn [Mem.opened Mem.tree Mem.path_of Mem.next].
  rewrite Nat.eqb_refl, mem_get_put. intros [= <- _]. reflexivity.
Qed.

(** * The claims on the sample server *)

Lemma not_connected_before_network_witness :
  sftp_client (offline sample_tree) = None
  /\ route Mem.paramiko Lib.pylib OpRemove
           (json_request [(lit "path", VStr (lit "/bin"))])
           (offline sample_tree)
     = (Ok not_connected, offline sample_tree).
Proof.
  split; [reflexivity|].
  apply (not_connected_before_network Mem.paramiko Lib.pylib). reflexivity.
Defined.

(** C2 as the specification states it fails: the same entries, handed
    over in two orders, give two listings when two of them tie.  Here
    [Notes] and [notes] are two files whose names agree up to case. *)
Lemma listing_order_counterexample :
  Permutation sample_tree sample_tree_swapped
  /\ listed_names (fst (listdir Mem.paramiko Lib.pylib sample_client (lit "/")
                                (online sample_tree)))
     = [lit "bin"; lit "log.txt"; lit "Notes"; lit "notes"; lit "readme.txt"]
  /\ listed_names (fst (listdir Mem.paramiko Lib.pylib sample_client (lit "/")
                                (online sample_tree_swapped)))
     = [lit "bin"; lit "log.txt"; lit "notes"; lit "Notes"; lit "readme.txt"]
  /\ fst (listdir Mem.paramiko Lib.pylib sample_client (lit "/")
                  (online sample_tree))
     <> fst (listdir Mem.paramiko Lib.pylib sample_client (lit "/")
                     (online sample_tree_swapped)).
Proof.
  split; [|split; [|split]].
  - unfold sample_tree, sample_tree_swapped.
    do 4 apply perm_skip. apply perm_swap.
  - vm_compute. reflexivity.
  - vm_compute. reflexivity.
  - vm_compute. intros H. discriminate H.
Qed.

Lemma listdir_sorted_stable_witness :
  fst (listdir Mem.paramiko Lib.pylib sample_client (lit "/")
               (online sample_tree)) = Ok (RList root_listing)
  /\ StronglySorted (listed_before Lib.pylib) root_listing.
Proof.
  assert (H : fst (listdir Mem.paramiko Lib.pylib sample_client (lit "/")
                           (online sample_tree)) = Ok (RList root_listing))
    by (vm_compute; reflexivity).
  split; [exact H|].
  destruct (listdir_sorted_stable Mem.paramiko Lib.pylib sample_client
              (lit "/") (online sample_tree) root_listing H)
    as (s & attrs & n1 & _ & _ & _ & Hsorted & _).
  exact Hsorted.
Defined.

Lemma write_then_read_roundtrip_witness :
  fst (write_file Mem.paramiko Lib.pylib sample_client (VStr (lit "/a.txt"))
                  (VStr sample_text) (online sample_tree)) = Ok RTrue
  /\ fst (read_file Mem.paramiko sample_client (lit "/a.txt") None
            (snd (write_file Mem.paramiko Lib.pylib sample_client
                             (VStr (lit "/a.txt")) (VStr sample_text)
                             (online sample_tree))))
     = Ok (RStr sample_text).
Proof.
  split; [vm_compute; reflexivity|].
  eapply (write_then_read_roundtrip Mem.paramiko Lib.pylib sample_client
            (lit "/a.txt") sample_text (online sample_tree) _ 1%nat).
  - exact mem_reads_back.
  - vm_compute. reflexivity.
  - reflexivity.
  - vm_compute. reflexivity.
  - vm_compute. reflexivity.
  - vm_compute. reflexivity.
Defined.

(** C4 does not hold of the program.  The file [/log.txt] of the sample
    tree holds the text "Error: disk full".  Reading it goes through:
    [read_file] returns that text after an open, a read and a close that
    raised nothing.  The route nevertheless answers with status 500 and
    the text as a failure message, because it takes every string that
    starts with "Error:" for an error report. *)
Theorem api_read_error_text_file :
  read_file Mem.paramiko sample_client (lit "/log.txt") None
            (online sample_tree)
  = (Ok (RStr (lit "Error: disk full")),
     mkWorld (Mem.mkState sample_tree [] 3%nat (Mem.accounts (sample_server [])))
             ∅
             [COpen 1%nat (VStr (lit "/log.txt")) ModeRB; CRead 2%nat None;
              CFileClose 2%nat]
             (Some sample_client))
  /\ fst (api_read Mem.paramiko Lib.pylib
            (get_request [(lit "path", lit "/log.txt")]) (online sample_tree))
     = Ok (Jsonify 500 false (Message (RStr (lit "Error: disk full")))).
Proof. split; vm_compute; reflexivity. Qed.

(** C5 does not hold of the program.  [/bin] of the sample tree is a
    directory that holds an entry.  [remove] inspects it first and then
    calls [rmdir], as the claim says; the server refuses, and what
    paramiko raises for an OpenSSH server is an [OSError] whose text is
    "Failure".  The clause of [remove] that is to report a directory
    that is not empty looks for "not empty" in that text, finds
    nothing, and the raw text is reported instead: the remove route
    answers 500 with "Error: Failure". *)
Theorem remove_nonempty_directory_reports_failure :
  Mem.get (lit "/bin") sample_tree = Some Mem.Dir
  /\ List.map fst (Mem.children (lit "/bin") sample_tree) = [lit "/bin/ls"]
  /\ remove Mem.paramiko Lib.pylib sample_client (VStr (lit "/bin"))
            (online sample_tree)
     = (Ok (RStr (lit "Error: Failure")),
        mkWorld (sample_server sample_tree) ∅
                [CStat 1%nat (VStr (lit "/bin")); CRmdir 1%nat (VStr (lit "/bin"))]
                (Some sample_client))
  /\ fst (api_remove Mem.paramiko Lib.pylib
            (json_request [(lit "path", VStr (lit "/bin"))])
            (online sample_tree))
     = Ok (Jsonify 500 false (Message (RStr (lit "Error: Failure"))))
  /\ lit "Error: Failure" <> lit "Error: Directory not empty: /bin".
Proof.
  split; [|split; [|split; [|split]]]; vm_compute; try reflexivity.
  intros H. discriminate H.
Qed.

Lemma remove_inspects_type_witness :
  sftp sample_client = Some 1%nat
  /\ exists r w1,
      remove Mem.paramiko Lib.pylib sample_client (VStr (lit "/readme.txt"))
             (online sample_tree) = (Ok r, w1)
      /\ trace w1 = [CStat 1%nat (VStr (lit "/readme.txt"));
                     CRemove 1%nat (VStr (lit "/readme.txt"))].
Proof.
  split; [reflexivity|].
  destruct (remove_inspects_type Mem.paramiko Lib.pylib sample_client 1%nat
              (VStr (lit "/readme.txt")) (online sample_tree) eq_refl)
    as (r & w1 & rs & n1 & Hrun & Hstat & Hcases).
  exists r, w1. split; [exact Hrun|].
  vm_compute in Hstat. injection Hstat as <- <-.
  cbn [st_mode] in Hcases.
  destruct Hcases as (rd & n2 & _ & Htrace & _).
  exact Htrace.
Defined.

Lemma download_directory_refused_witness :
  sftp_client (online sample_tree) = Some sample_client
  /\ S_ISDIR mode_dir = true
  /\ api_download Mem.paramiko Lib.pylib
                  (get_request [(lit "path", lit "/bin")]) (online sample_tree)
     = (Ok (Jsonify 500 false
              (Message (RStr (lit "Error: '/bin' is a directory")))),
        mkWorld (sample_server sample_tree) ∅
                [CStat 1%nat (VStr (lit "/bin"))] (Some sample_client)).
Proof.
  split; [reflexivity|]. split; [reflexivity|].
  exact (proj2 (download_directory_refused Mem.paramiko Lib.pylib
                  (get_request [(lit "path", lit "/bin")]) (lit "/bin")
                  (online sample_tree) sample_client 1%nat
                  (Mem.attr_of (lit "/bin") Mem.Dir)
                  (sample_server sample_tree) mode_dir
                  eq_refl eq_refl eq_refl eq_refl eq_refl eq_refl eq_refl
                  eq_refl)).
Defined.


Lemma connect_validation_witness :
  connect_route Mem.paramiko Lib.pylib (json_request empty_host_fields)
                (online sample_tree)
  = (Ok rejected, online sample_tree)
  /\ exists resp w1 c,
      connect_route Mem.paramiko Lib.pylib (json_request empty_password_fields)
                    (online sample_tree) = (Ok resp, w1)
      /\ resp <> rejected
      /\ In (CConnect c (VStr (lit "h")) 22 (VStr (lit "guest")) (VStr []))
            (trace w1).
Proof.
  split.
  - apply (proj1 (connect_validation Mem.paramiko Lib.pylib
                    (json_request empty_host_fields) empty_host_fields
                    (online sample_tree) eq_refl)).
    right. left. reflexivity.
  - apply (proj2 (connect_validation Mem.paramiko Lib.pylib
                    (json_request empty_password_fields) empty_password_fields
                    (online sample_tree) eq_refl));
      reflexivity.
Defined.

(** * Further properties of the program *)

(** ** The methods never raise *)

Lemma startswith_nil (s : str) : startswith s [] = true.
Proof. destruct s; reflexivity. Qed.

Lemma error_report_intro (prefix rest : str) :
  startswith prefix (lit "Error:") = true ->
  is_error_report (RStr (prefix ++ rest)) = true.
Proof.
  cbn [is_error_report]. generalize (lit "Error:"). revert rest.
  induction prefix as [|c prefix IH]; intros rest q; destruct q as [|d q];
    intros H; try apply startswith_nil; [discriminate H|].
  cbn in H |- *. apply andb_true_iff in H as [H1 H2].
  rewrite H1. cbn. now apply IH.
Qed.

Ltac error_report :=
  match goal with
  | |- is_error_report (RStr (_ ++ _)) = true =>
      apply error_report_intro; reflexivity
  | |- is_error_report (RStr _) = true => reflexivity
  end.

(** Peels the binds off a computation known to have returned. *)
Ltac inv_binds H :=
  repeat (apply bind_inv_ok in H as (? & ? & _ & H)).

Section Totality.
Context {Net : Type} (P : Paramiko Net) (L : PyLib).
Local Open Scope gw_scope.

(** A [try] whose handler answers every exception with a value. *)
Lemma try_except_total {A} (Q : A -> Prop) (m : M A) (h : Exn -> M A)
      (w : World Net) :
  (forall a w1, m w = (Ok a, w1) -> Q a) ->
  (forall e w1, exists a w2, h e w1 = (Ok a, w2) /\ Q a) ->
  exists a w2, try_except m h w = (Ok a, w2) /\ Q a.
Proof.
  intros Hm Hh. unfold try_except.
  destruct (m w) as [[a|e] w1] eqn:E.
  - exists a, w1. split; [reflexivity | now apply (Hm a w1)].
  - apply Hh.
Qed.

Lemma write_file_total (self : SFTPClient) (p content : Value) (w : World Net) :
  exists r w1,
    write_file P L self p content w = (Ok r, w1) /\ acknowledged_or_error r.
Proof.
  unfold write_file. apply try_except_total.
  - intros a w1 H. inv_binds H. injection H as <- _. now left.
  - intros e w1. destruct (exn_class e); eexists _, _;
      (split; [reflexivity | right; error_report]).
Qed.

Lemma mkdir_total (self : SFTPClient) (p : Value) (w : World Net) :
  exists r w1, mkdir P L self p w = (Ok r, w1) /\ acknowledged_or_error r.
Proof.
  unfold mkdir. apply try_except_total.
  - intros a w1 H. inv_binds H. injection H as <- _. now left.
  - intros e w1. destruct (exn_class e); eexists _, _;
      (split; [reflexivity | right; error_report]).
Qed.

Lemma rename_total (self : SFTPClient) (old new : Value) (w : World Net) :
  exists r w1, rename P L self old new w = (Ok r, w1) /\ acknowledged_or_error r.
Proof.
  unfold rename. apply try_except_total.
  - intros a w1 H. inv_binds H. injection H as <- _. now left.
  - intros e w1. destruct (exn_class e); eexists _, _;
      (split; [reflexivity | right; error_report]).
Qed.

Lemma upload_local_total (self : SFTPClient) (lp rp : str) (w : World Net) :
  exists r w1,
    upload_local P self lp rp w = (Ok r, w1) /\ acknowledged_or_error r.
Proof.
  unfold upload_local. apply try_except_total.
  - intros a w1 H. inv_binds H. injection H as <- _. now left.
  - intros e w1. destruct (exn_class e); eexists _, _;
      (split; [reflexivity | right; error_report]).
Qed.

Lemma download_to_local_total (self : SFTPClient) (rp lp : str) (w : World Net) :
  exists r w1,
    download_to_local P self rp lp w = (Ok r, w1) /\ acknowledged_or_error r.
Proof.
  unfold download_to_local. apply try_except_total.
  - intros a w1 H.
    apply bind_inv_ok in H as (s & ? & _ & H).
    apply bind_inv_ok in H as (st & ? & _ & H).
    apply bind_inv_ok in H as (d & ? & _ & H).
    destruct d.
    + injection H as <- _. right. error_report.
    + inv_binds H. injection H as <- _. now left.
  - intros e w1. destruct (exn_class e); eexists _, _;
      (split; [reflexivity | right; error_report]).
Qed.

Lemma remove_error_report (p : Value) (e : Exn) :
  is_error_report (RStr (remove_error L p e)) = true.
Proof.
  unfold remove_error.
  destruct (exn_class e), (is_OSError e);
    try destruct (contains _ _); error_report.
Qed.

Lemma remove_total (self : SFTPClient) (p : Value) (w : World Net) :
  exists r w1, remove P L self p w = (Ok r, w1) /\ acknowledged_or_error r.
Proof.
  unfold remove. apply try_except_total.
  - intros a w1 H.
    apply bind_inv_ok in H as (r & w0 & Hin & H).
    destruct r as [early|st].
    + injection H as <- _.
      unfold try_except in Hin.
      match type of Hin with
      | (let (_, _) := ?m in _) = _ => destruct m as [[x|e] w'] eqn:E
      end.
      * inv_binds E. injection E as <- _. discriminate Hin.
      * destruct (is_OSError e); [|discriminate Hin].
        injection Hin as <- _. right. error_report.
    + inv_binds H. injection H as <- _. now left.
  - intros e w1. eexists _, _. split; [reflexivity|].
    right. apply remove_error_report.
Qed.
Lemma listdir_total (self : SFTPClient) (p : str) (w : World Net) :
  exists r w1,
    listdir P L self p w = (Ok r, w1)
    /\ ((exists items, r = RList items) \/ is_error_report r = true).
Proof.
  unfold listdir. apply try_except_total.
  - intros a w1 H. inv_binds H. injection H as <- _. left. eauto.
  - intros e w1. destruct (exn_class e); eexists _, _;
      (split; [reflexivity | right; error_report]).
Qed.

Lemma stat_total (self : SFTPClient) (p : str) (w : World Net) :
  exists r w1,
    stat P self p w = (Ok r, w1)
    /\ ((exists info, r = RDict info) \/ is_error_report r = true).
Proof.
  unfold stat. apply try_except_total.
  - intros a w1 H. inv_binds H. injection H as <- _. left. eauto.
  - intros e w1. destruct (exn_class e); eexists _, _;
      (split; [reflexivity | right; error_report]).
Qed.

Lemma read_file_total (self : SFTPClient) (p : str) (n : option Z)
      (w : World Net) :
  exists r w1, read_file P self p n w = (Ok r, w1) /\ exists s, r = RStr s.
Proof.
  unfold read_file. apply try_except_total.
  - intros a w1 H. unfold with_open in H.
    apply bind_inv_ok in H as (s & wa & _ & H).
    apply bind_inv_ok in H as (f & wb & _ & H).
    unfold finally in H.
    match type of H with
    | (let (_, _) := ?m in _) = _ => destruct m as [[rd|e0] w'] eqn:E
    end.
    + inv_binds E. injection E as <- _.
      destruct (call _ _ _) as [[[]|e] w'']; [|discriminate H].
      injection H as <- _. eauto.
    + destruct (call _ _ _) as [[[]|e'] w'']; discriminate H.
  - intros e w1. destruct (exn_class e); eexists _, _;
      (split; [reflexivity | eauto]).
Qed.

(** X1.  The six methods that acknowledge ([write_file], [mkdir],
    [remove], [rename], [upload_local], [download_to_local]) never
    raise, whatever paramiko does and whatever the arguments are, also
    on an object without a channel: each returns [True] or a text that
    starts with "Error:". *)
Theorem acknowledging_methods_never_raise (self : SFTPClient) (w : World Net) :
  (forall p content, exists r w1,
      write_file P L self p content w = (Ok r, w1) /\ acknowledged_or_error r)
  /\ (forall p, exists r w1,
         mkdir P L self p w = (Ok r, w1) /\ acknowledged_or_error r)
  /\ (forall p, exists r w1,
         remove P L self p w = (Ok r, w1) /\ acknowledged_or_error r)
  /\ (forall old new, exists r w1,
         rename P L self old new w = (Ok r, w1) /\ acknowledged_or_error r)
  /\ (forall lp rp, exists r w1,
         upload_local P self lp rp w = (Ok r, w1) /\ acknowledged_or_error r)
  /\ (forall rp lp, exists r w1,
         download_to_local P self rp lp w = (Ok r, w1)
         /\ acknowledged_or_error r).
Proof.
  repeat split; intros.
  - apply write_file_total.
  - apply mkdir_total.
  - apply remove_total.
  - apply rename_total.
  - apply upload_local_total.
  - apply download_to_local_total.
Qed.

(** X2.  The three methods that return data never raise either:
    [listdir] returns a list or a text that starts with "Error:",
    [stat] a dict or such a text, and [read_file] a [str] in every
    case, content and failure report alike. *)
Theorem reading_methods_never_raise (self : SFTPClient) (p : str)
        (w : World Net) :
  (exists r w1, listdir P L self p w = (Ok r, w1)
                /\ ((exists items, r = RList items)
                    \/ is_error_report r = true))
  /\ (exists r w1, stat P self p w = (Ok r, w1)
                   /\ ((exists info, r = RDict info)
                       \/ is_error_report r = true))
  /\ (forall n, exists r w1, read_file P self p n w = (Ok r, w1)
                             /\ exists s, r = RStr s).
Proof.
  split; [apply listdir_total|]. split; [apply stat_total|].
  intros n. apply read_file_total.
Qed.
End Totality.

(** ** Closing, and connecting again *)

Section Lifecycle.
Context {Net : Type} (P : Paramiko Net) (L : PyLib).
Local Open Scope gw_scope.

(** X3.  [close] on an object that holds both handles closes the
    channel first and the SSH client second; when closing the channel
    raises, the exception is swallowed and the SSH client is not closed
    at all.  In both cases [close] returns normally. *)
Theorem close_order (self : SFTPClient) (s c : handle) (w : World Net) :
  sftp self = Some s ->
  client self = Some c ->
  exists w1,
    close P self w = (Ok tt, w1)
    /\ match fst (sftp_close P s (net w)) with
       | Ok _ => trace w1 = trace w ++ [CSftpClose s; CSshClose c]
       | Raise _ => trace w1 = trace w ++ [CSftpClose s]
       end.
Proof.
  intros Hs Hc. unfold close, suppress, try_except, bind, call, ret.
  rewrite Hs, Hc.
  destruct (sftp_close P s (net w)) as [[[]|e] n1];
    cbn [fst net local_fs trace sftp_client].
  - destruct (ssh_close P c n1) as [[[]|e] n2];
      eexists; (split; [reflexivity|]); cbn [trace];
      rewrite <- app_assoc; reflexivity.
  - eexists. split; reflexivity.
Qed.

(** X4.  In a session, a read request whose [max] parameter is a text
    that [int] rejects is not answered at all: the exception of [int]
    leaves the route, before anything is sent to paramiko. *)
Theorem api_read_bad_cap (req : Request) (p m : str) (e : Exn)
        (c : SFTPClient) (w : World Net) :
  sftp_client w = Some c ->
  arg req "path" = Some p ->
  truthy_str p = true ->
  arg req "max" = Some m ->
  truthy_str m = true ->
  int_ L (VStr m) = Raise e ->
  api_read P L req w = (Raise e, w).
Proof.
  intros Hg Hp Ht Hm Htm Hi.
  unfold api_read, bind at 1, get_global at 1. rewrite Hg, Hp, Ht, Hm, Htm.
  unfold bind, lift. rewrite Hi. reflexivity.
Qed.

(** X5.  A connect request that passes the input check but whose port
    [int] rejects is not answered either: the exception leaves the
    route after the active session has been closed and before the
    global is assigned, so the global still holds the closed session
    and no connection attempt was made. *)
Theorem connect_bad_port_keeps_closed_session
        (req : Request) (d : list (str * Value)) (e : Exn)
        (old : SFTPClient) (w : World Net) :
  body_fields req = Some d ->
  truthy (dget d "host" VNone) = true ->
  truthy (dget d "username" VNone) = true ->
  dget d "password" VNone <> VNone ->
  int_ L (dget d "port" (VInt 22)) = Raise e ->
  sftp_client w = Some old ->
  exists w1,
    connect_route P L req w = (Raise e, w1)
    /\ close P old w = (Ok tt, w1)
    /\ sftp_client w1 = Some old.
Proof.
  intros Hd Th Tu Hpw Hi Hg.
  rewrite (connect_route_dict P L req d w Hd), Th, Tu. cbn [negb orb].
  destruct (dget d "password" VNone) eqn:Epw; try congruence;
    destruct (close_ok P old w) as (w1 & Ec & G);
    exists w1;
    (split; [|split; [exact Ec | now rewrite G]]);
    unfold bind at 1, get_global at 1; rewrite Hg;
    unfold bind at 1, suppress, try_except; rewrite Ec;
    unfold new_client, bind, lift; rewrite Hi; reflexivity.
Qed.
End Lifecycle.

Lemma close_order_witness :
  sftp sample_client = Some 1%nat
  /\ client sample_client = Some 0%nat
  /\ trace (snd (close Mem.paramiko sample_client (online sample_tree)))
     = [CSftpClose 1%nat; CSshClose 0%nat].
Proof.
  split; [reflexivity|]. split; [reflexivity|].
  destruct (close_order Mem.paramiko sample_client 1%nat 0%nat
              (online sample_tree) eq_refl eq_refl) as (w1 & E & T).
  rewrite E. exact T.
Defined.

Lemma api_read_bad_cap_witness :
  Lib.to_int (VStr (lit "ten"))
  = Raise (Lib.ValueError (lit "invalid literal for int() with base 10"))
  /\ api_read Mem.paramiko Lib.pylib
              (get_request [(lit "path", lit "/readme.txt"); (lit "max", lit "ten")])
              (online sample_tree)
     = (Raise (Lib.ValueError (lit "invalid literal for int() with base 10")),
        online sample_tree).
Proof.
  split; [reflexivity|].
  apply (api_read_bad_cap Mem.paramiko Lib.pylib _ (lit "/readme.txt")
           (lit "ten") _ sample_client); reflexivity.
Defined.

Lemma connect_bad_port_keeps_closed_session_witness :
  exists w1,
    connect_route Mem.paramiko Lib.pylib
      (json_request [(lit "host", VStr (lit "h")); (lit "port", VStr (lit "ssh"));
                     (lit "username", VStr (lit "u"));
                     (lit "password", VStr (lit "p"))])
      (online sample_tree)
    = (Raise (Lib.ValueError (lit "invalid literal for int() with base 10")), w1)
    /\ sftp_client w1 = Some sample_client.
Proof.
  destruct (connect_bad_port_keeps_closed_session Mem.paramiko Lib.pylib
              (json_request [(lit "host", VStr (lit "h"));
                             (lit "port", VStr (lit "ssh"));
                             (lit "username", VStr (lit "u"));
                             (lit "password", VStr (lit "p"))])
              _ (Lib.ValueError (lit "invalid literal for int() with base 10"))
              sample_client (online sample_tree)
              eq_refl eq_refl eq_refl ltac:(discriminate) eq_refl eq_refl)
    as (w1 & E & _ & G).
  exists w1. split; [exact E | exact G].
Defined.

(** ** The routes on their inputs *)

Section RouteInputs.
Context {Net : Type} (P : Paramiko Net) (L : PyLib).
Local Open Scope gw_scope.

(** X6.  In a session, a request that names no path is refused with
    status 400 and the world is left as it was, nothing being sent to
    paramiko: for [read], [download] and [stat] when the [path]
    parameter is absent or empty; for [write], [mkdir] and [remove]
    when the [path] field of the body is absent or falsy; for [rename]
    when [old] or [new] is. *)
Theorem missing_path_refused (req : Request) (c : SFTPClient) (w : World Net) :
  sftp_client w = Some c ->
  ((arg req "path" = None \/ arg req "path" = Some []) ->
   api_read P L req w = (Ok missing_path, w)
   /\ api_download P L req w = (Ok missing_path, w)
   /\ api_stat P req w = (Ok missing_path, w))
  /\ (forall d,
         body_fields req = Some d ->
         truthy (dget d "path" VNone) = false ->
         api_write P L req w = (Ok missing_path, w)
         /\ api_mkdir P L req w = (Ok missing_path, w)
         /\ api_remove P L req w = (Ok missing_path, w))
  /\ (forall d,
         body_fields req = Some d ->
         truthy (dget d "old" VNone) && truthy (dget d "new" VNone) = false ->
         api_rename P L req w
         = (Ok (Jsonify 400 false
                  (Message (RStr (lit "Missing old or new path")))), w)).
Proof.
  intros Hg. split; [|split].
  - intros [H|H];
      unfold api_read, api_download, api_stat, bind, get_global;
      rewrite Hg, H; auto.
  - intros d Hd Hp.
    pose proof (request_data_dict req d w Hd) as Ed.
    repeat split.
    + unfold api_write. unfold bind at 1, get_global at 1. rewrite Hg.
      rewrite (bind_ok _ _ _ _ _ Ed).
      unfold bind, dict_get, ret. fold (dget d "path" VNone). now rewrite Hp.
    + unfold api_mkdir. unfold bind at 1, get_global at 1. rewrite Hg.
      rewrite (bind_ok _ _ _ _ _ Ed).
      unfold bind, dict_get, ret. fold (dget d "path" VNone). now rewrite Hp.
    + unfold api_remove. unfold bind at 1, get_global at 1. rewrite Hg.
      rewrite (bind_ok _ _ _ _ _ Ed).
      unfold bind, dict_get, ret. fold (dget d "path" VNone). now rewrite Hp.
  - intros d Hd Hp.
    pose proof (request_data_dict req d w Hd) as Ed.
    unfold api_rename. unfold bind at 1, get_global at 1. rewrite Hg.
    rewrite (bind_ok _ _ _ _ _ Ed).
    unfold bind, dict_get, ret.
    fold (dget d "old" VNone). fold (dget d "new" VNone). rewrite Hp.
    reflexivity.
Qed.
Lemma acknowledge_json (r : Ret) : json_answer (acknowledge r).
Proof. destruct r; cbn; auto. Qed.

Lemma json_route_answers (req : Request) (d : list (str * Value))
      (k : string) (c : SFTPClient) (w : World Net)
      (method : SFTPClient -> Value -> M Ret) :
  body_fields req = Some d ->
  (forall p w0, exists r w1, method c p w0 = (Ok r, w1)) ->
  exists resp w1,
    (data <- request_data req ;;
     p <- dict_get data k VNone ;;
     if truthy p then res <- method c p ;; ret (acknowledge res)
     else ret missing_path) w = (Ok resp, w1)
    /\ json_answer resp.
Proof.
  intros Hd Hm.
  rewrite (bind_ok _ _ _ _ _ (request_data_dict req d w Hd)).
  unfold bind at 1, dict_get, ret at 1.
  destruct (truthy _).
  - destruct (Hm (match assoc (lit k) d with Some v => v | None => VNone end) w)
      as (r & w1 & E).
    rewrite (bind_ok _ _ _ _ _ E). eexists _, _. split; [reflexivity|].
    apply acknowledge_json.
  - eexists _, _. split; [reflexivity|]. cbn. auto.
Qed.

(** X7.  Whatever paramiko does, the routes [list] and [stat] answer
    every request, and the routes [write], [mkdir], [remove] and
    [rename] answer every request whose body is a JSON object (or
    falsy): no exception leaves them, and the answer is status 200 with
    success, or status 400 or 500 without. *)
Theorem json_routes_always_answer (req : Request) (w : World Net) :
  (exists resp w1, api_list P L req w = (Ok resp, w1) /\ json_answer resp)
  /\ (exists resp w1, api_stat P req w = (Ok resp, w1) /\ json_answer resp)
  /\ (forall d,
         body_fields req = Some d ->
         (exists resp w1, api_write P L req w = (Ok resp, w1)
                          /\ json_answer resp)
         /\ (exists resp w1, api_mkdir P L req w = (Ok resp, w1)
                             /\ json_answer resp)
         /\ (exists resp w1, api_remove P L req w = (Ok resp, w1)
                             /\ json_answer resp)
         /\ (exists resp w1, api_rename P L req w = (Ok resp, w1)
                             /\ json_answer resp)).
Proof.
  assert (Hnc : json_answer not_connected) by (cbn; auto).
  assert (Hmp : json_answer missing_path) by (cbn; auto).
  split; [|split].
  - unfold api_list, bind at 1, get_global at 1.
    destruct (sftp_client w) as [c|]; [|eexists _, _; split; [reflexivity|exact Hnc]].
    destruct (listdir_total P L c
                (match arg req "path" with Some p => p | None => lit "/" end) w)
      as (r & w1 & E & _).
    rewrite (bind_ok _ _ _ _ _ E).
    destruct r; eexists _, _; (split; [reflexivity|]); cbn; auto.
  - unfold api_stat, bind at 1, get_global at 1.
    destruct (sftp_client w) as [c|]; [|eexists _, _; split; [reflexivity|exact Hnc]].
    destruct (arg req "path") as [p|]; [|eexists _, _; split; [reflexivity|exact Hmp]].
    destruct (truthy_str p); [|eexists _, _; split; [reflexivity|exact Hmp]].
    destruct (stat_total P c p w) as (r & w1 & E & _).
    rewrite (bind_ok _ _ _ _ _ E).
    destruct r; eexists _, _; (split; [reflexivity|]); cbn; auto.
  - intros d Hd. repeat split.
    + unfold api_write, bind at 1, get_global at 1.
      destruct (sftp_client w) as [c|];
        [|eexists _, _; split; [reflexivity|exact Hnc]].
      rewrite (bind_ok _ _ _ _ _ (request_data_dict req d w Hd)).
      unfold bind at 1, dict_get at 1, ret at 1.
      unfold bind at 1, dict_get at 1, ret at 1.
      destruct (truthy _); [|eexists _, _; split; [reflexivity|exact Hmp]].
      match goal with
      | |- context [write_file P L c ?p ?ct] =>
          destruct (write_file_total P L c p ct w) as (r & w1 & E & _)
      end.
      rewrite (bind_ok _ _ _ _ _ E). eexists _, _. split; [reflexivity|].
      apply acknowledge_json.
    + unfold api_mkdir, bind at 1, get_global at 1.
      destruct (sftp_client w) as [c|];
        [|eexists _, _; split; [reflexivity|exact Hnc]].
      apply (json_route_answers req d "path" c w (mkdir P L) Hd).
      intros p w0. destruct (mkdir_total P L c p w0) as (r & w1 & E & _). eauto.
    + unfold api_remove, bind at 1, get_global at 1.
      destruct (sftp_client w) as [c|];
        [|eexists _, _; split; [reflexivity|exact Hnc]].
      apply (json_route_answers req d "path" c w (remove P L) Hd).
      intros p w0. destruct (remove_total P L c p w0) as (r & w1 & E & _). eauto.
    + unfold api_rename, bind at 1, get_global at 1.
      destruct (sftp_client w) as [c|];
        [|eexists _, _; split; [reflexivity|exact Hnc]].
      rewrite (bind_ok _ _ _ _ _ (request_data_dict req d w Hd)).
      unfold bind at 1, dict_get at 1, ret at 1.
      unfold bind at 1, dict_get at 1, ret at 1.
      destruct (_ && _);
        [|eexists _, _; split; [reflexivity|cbn; auto]].
      match goal with
      | |- context [rename P L c ?o ?n] =>
          destruct (rename_total P L c o n w) as (r & w1 & E & _)
      end.
      rewrite (bind_ok _ _ _ _ _ E). eexists _, _. split; [reflexivity|].
      apply acknowledge_json.
Qed.
End RouteInputs.

(** ** Staging files *)

Section Staging.
Context {Net : Type} (P : Paramiko Net) (L : PyLib).
Local Open Scope gw_scope.

(** X8.  An upload in a session, with a free staging name: the payload
    is saved under the staging name, one [put] call sends that file to
    the target directory (trailing slashes dropped) joined with the
    sanitised file name, and the staging file is removed again whether
    [put] succeeded or raised: the local files after the request are
    the local files before it.  The answer is 200 when [put] returned
    and 500 with an "Error:" text when it raised. *)
Theorem upload_stages_and_cleans
        (req : Request) (f : Upload) (c : SFTPClient) (s : handle)
        (w : World Net) (r : Outcome unit) (n1 : Net) :
  sftp_client w = Some c ->
  sftp c = Some s ->
  assoc (lit "file") (req_files req) = Some f ->
  truthy_str (up_filename f) = true ->
  local_fs w !! tmp_name L (local_fs w) = None ->
  sftp_put P s (tmp_name L (local_fs w)) (upload_target L req f)
           (<[tmp_name L (local_fs w) := up_data f]> (local_fs w)) (net w)
  = (r, n1) ->
  exists resp,
    api_upload P L req w
    = (Ok resp,
       mkWorld n1 (local_fs w)
               (trace w ++ [CPut s (tmp_name L (local_fs w))
                                 (upload_target L req f)])
               (sftp_client w))
    /\ match r with
       | Ok _ => resp = Jsonify 200 true NoPayload
       | Raise _ => exists m, resp = Jsonify 500 false (Message (RStr m))
                              /\ startswith m (lit "Error:") = true
       end.
Proof.
  intros Hg Hs Hf Hn Hfree Hput.
  unfold api_upload, bind at 1, get_global at 1. rewrite Hg, Hf, Hn.
  cbn [negb]. fold (upload_target L req f).
  set (tmp := tmp_name L (local_fs w)) in *.
  unfold bind at 1, mkstemp at 1. fold tmp. rewrite Hfree.
  unfold finally, bind at 1, save_upload at 1.
  cbn [net local_fs trace sftp_client].
  rewrite insert_insert_eq.
  unfold upload_local, try_except, the_sftp, call, ret, bind.
  rewrite Hs. cbn [net local_fs trace sftp_client]. rewrite Hput.
  assert (Hclean : delete tmp (<[tmp := up_data f]> (local_fs w)) = local_fs w)
    by (rewrite delete_insert_eq; now apply delete_id).
  destruct r as [[]|e]; cbn [net local_fs trace sftp_client].
  - unfold suppress, try_except, os_remove.
    cbn [net local_fs trace sftp_client].
    rewrite lookup_insert_eq, Hclean, Hg.
    eexists. split; reflexivity.
  - destruct (exn_class e); cbn [net local_fs trace sftp_client];
      unfold suppress, try_except, os_remove;
      cbn [net local_fs trace sftp_client];
      rewrite lookup_insert_eq, Hclean, Hg;
      (eexists; split; [reflexivity|]); eexists; (split; [reflexivity|]);
      first [ now apply error_report_intro | reflexivity ].
Qed.

(** X9.  A download in a session, with a free staging name, of a path
    that [stat] does not report as a directory and that [get] fetches
    into the staging file: the answer is the fetched content as an
    attachment named by the last component of the path, the calls are
    the [stat] and the [get], and the staging file is removed once the
    answer is made. *)
Theorem download_sends_and_cleans
        (req : Request) (p : str) (c : SFTPClient) (s : handle)
        (w : World Net) (st : SFTPAttributes) (m : Z) (n1 n2 : Net)
        (fs1 : LocalFS) (data : bytes) :
  sftp_client w = Some c ->
  sftp c = Some s ->
  arg req "path" = Some p ->
  truthy_str p = true ->
  local_fs w !! tmp_name L (local_fs w) = None ->
  sftp_stat P s (VStr p) (net w) = (Ok st, n1) ->
  st_mode st = Some m ->
  S_ISDIR m = false ->
  sftp_get P s p (tmp_name L (local_fs w))
           (<[tmp_name L (local_fs w) := []]> (local_fs w)) n1
  = (Ok tt, (fs1, n2)) ->
  fs1 !! tmp_name L (local_fs w) = Some data ->
  api_download P L req w
  = (Ok (SendFile (basename p) data),
     mkWorld n2 (delete (tmp_name L (local_fs w)) fs1)
             (trace w ++ [CStat s (VStr p);
                          CGet s p (tmp_name L (local_fs w))])
             (sftp_client w)).
Proof.
  intros Hg Hs Hp Ht Hfree Hstat Hm Hd Hget Hdata.
  unfold api_download, bind at 1, get_global at 1. rewrite Hg, Hp, Ht.
  set (tmp := tmp_name L (local_fs w)) in *.
  unfold bind at 1, mkstemp at 1. fold tmp. rewrite Hfree.
  unfold download_to_local, try_except, the_sftp, call, call_get, lift, ret,
    bind.
  rewrite Hs. cbn [net local_fs trace sftp_client].
  rewrite Hstat. cbn [net local_fs trace sftp_client].
  rewrite Hm. cbn [S_ISDIR_of]. rewrite Hd.
  cbn [net local_fs trace sftp_client]. rewrite Hget.
  cbn [net local_fs trace sftp_client].
  unfold finally, send_file, suppress, try_except, os_remove.
  cbn [net local_fs trace sftp_client]. rewrite Hdata.
  cbn [net local_fs trace sftp_client]. rewrite Hdata.
  cbn [net local_fs trace sftp_client].
  rewrite Hg, <- app_assoc. reflexivity.
Qed.

Lemma os_remove_gone (p : str) (w : World Net) :
  exists w1, suppress (os_remove p) w = (Ok tt, w1)
             /\ local_fs w1 !! p = None.
Proof.
  unfold suppress, try_except, os_remove, ret.
  destruct (local_fs w !! p) eqn:E; eexists; (split; [reflexivity|]);
    cbn [local_fs].
  - apply lookup_delete_eq.
  - exact E.
Qed.

(** X10.  Whatever paramiko does and however the transfer ends, with a
    result, a failure report or an exception of [send_file], a
    download request in a session never leaves its staging file
    behind. *)
Theorem download_never_leaves_staging_file
        (req : Request) (p : str) (c : SFTPClient) (w : World Net) :
  sftp_client w = Some c ->
  arg req "path" = Some p ->
  truthy_str p = true ->
  local_fs w !! tmp_name L (local_fs w) = None ->
  local_fs (snd (api_download P L req w)) !! tmp_name L (local_fs w) = None.
Proof.
  intros Hg Hp Ht Hfree.
  unfold api_download, bind at 1, get_global at 1. rewrite Hg, Hp, Ht.
  set (tmp := tmp_name L (local_fs w)) in *.
  unfold bind at 1, mkstemp at 1. fold tmp. rewrite Hfree.
  match goal with
  | |- context [bind (download_to_local P c p tmp) _ ?w0] =>
      destruct (download_to_local_total P c p tmp w0) as (r & w1 & E & _)
  end.
  rewrite (bind_ok _ _ _ _ _ E).
  destruct (os_remove_gone tmp w1) as (w2 & E2 & G2).
  assert (Hfail : forall res : Ret,
             local_fs (snd ((suppress (os_remove tmp) ;;;
                             ret (failed res)) w1)) !! tmp = None).
  { intros res. rewrite (bind_ok _ _ _ _ _ E2). exact G2. }
  destruct r; try apply Hfail.
  unfold finally.
  destruct (send_file tmp (basename p) w1) as [o w1'] eqn:Es.
  assert (w1' = w1) as ->.
  { unfold send_file in Es. destruct (local_fs w1 !! tmp);
      now injection Es as _ <-. }
  rewrite E2. exact G2.
Qed.
End Staging.

(** ** Bytes through UTF-8 *)

Lemma map_Some_cons (c : Z) (l : list (option Z)) (s : str) :
  Some c :: l = List.map Some s ->
  exists s', s = c :: s' /\ l = List.map Some s'.
Proof. destruct s as [|d s']; cbn; [discriminate|]. intros [= -> ->]. eauto. Qed.

Lemma map_Some_None (l : list (option Z)) (s : str) :
  None :: l = List.map Some s -> False.
Proof. destruct s; discriminate. Qed.

Lemma is_cont_range (b : Z) : Utf8.is_cont b = true -> 128 <= b <= 191.
Proof.
  unfold Utf8.is_cont. intros H. apply andb_true_iff in H as [H1 H2].
  apply Z.leb_le in H1, H2. lia.
Qed.

(** The encoding of one decoded code point is the bytes it was decoded
    from. *)
Ltac encode_back :=
  unfold Utf8.encode_cp; rewrite ?div_262144, ?div_4096;
  settle_tests; cbn [andb]; settle_tests;
  rewrite ?div_262144, ?div_4096;
  repeat (f_equal; try zdm).

Lemma encode_decode_aux (n : nat) :
  forall (bs : bytes) (s : str),
    (length bs <= n)%nat ->
    wf_bytes bs ->
    Utf8.decode bs = List.map Some s ->
    Utf8.encode s = Some bs.
Proof.
  induction n as [|n IH]; intros bs s Hlen Hwf H.
  { destruct bs; [|cbn in Hlen; lia]. destruct s; [reflexivity|discriminate]. }
  destruct bs as [|b1 r1].
  { destruct s; [reflexivity|discriminate]. }
  apply Forall_cons in Hwf as [Hb1 Hwf1].
  cbn [length] in Hlen. cbn [Utf8.decode] in H.
  destruct (Z.ltb_spec b1 128).
  { apply map_Some_cons in H as (s' & -> & H).
    cbn [Utf8.encode]. rewrite (IH r1 s' ltac:(lia) Hwf1 H).
    replace (Utf8.encode_cp b1) with (Some [b1]); [reflexivity|].
    symmetry. encode_back. }
  destruct (Z.ltb_spec b1 194); [now apply map_Some_None in H|].
  destruct r1 as [|b2 r2];
    [repeat destruct (_ <? _); now apply map_Some_None in H|].
  apply Forall_cons in Hwf1 as [Hb2 Hwf2]. cbn [length] in Hlen.
  destruct (Z.ltb_spec b1 224).
  { destruct (Utf8.is_cont b2) eqn:C2; [|now apply map_Some_None in H].
    apply is_cont_range in C2.
    apply map_Some_cons in H as (s' & -> & H).
    cbn [Utf8.encode]. rewrite (IH r2 s' ltac:(lia) Hwf2 H).
    replace (Utf8.encode_cp _) with (Some [b1; b2]); [reflexivity|].
    symmetry. encode_back. }
  destruct (Z.ltb_spec b1 240).
  { destruct (Utf8.is_cont b2) eqn:C2; cbn [negb orb] in H;
      [|now apply map_Some_None in H].
    apply is_cont_range in C2.
    destruct (Z.ltb_spec b2 160);
      (destruct (Z.eqb_spec b1 224); [try now apply map_Some_None in H|]);
      (destruct (Z.eqb_spec b1 237); [try now apply map_Some_None in H|]);
      try (exfalso; lia);
      (destruct r2 as [|b3 r3]; [now apply map_Some_None in H|]);
      apply Forall_cons in Hwf2 as [Hb3 Hwf3]; cbn [length] in Hlen;
      (destruct (Utf8.is_cont b3) eqn:C3; [|now apply map_Some_None in H]);
      apply is_cont_range in C3;
      apply map_Some_cons in H as (s' & -> & H);
      cbn [Utf8.encode]; rewrite (IH r3 s' ltac:(lia) Hwf3 H);
      (replace (Utf8.encode_cp _) with (Some [b1; b2; b3]); [reflexivity|]);
      symmetry; destruct (Z.ltb_spec b1 237); encode_back. }
  destruct (Z.ltb_spec b1 245); [|now apply map_Some_None in H].
  destruct (Utf8.is_cont b2) eqn:C2; cbn [negb orb] in H;
    [|now apply map_Some_None in H].
  apply is_cont_range in C2.
  destruct (Z.ltb_spec b2 144);
    (destruct (Z.eqb_spec b1 240); [try now apply map_Some_None in H|]);
    (destruct (Z.eqb_spec b1 244); [try now apply map_Some_None in H|]);
    try (exfalso; lia);
    (destruct r2 as [|b3 r3]; [now apply map_Some_None in H|]);
    apply Forall_cons in Hwf2 as [Hb3 Hwf3]; cbn [length] in Hlen;
    (destruct (Utf8.is_cont b3) eqn:C3; cbn [negb] in H;
     [|now apply map_Some_None in H]);
    apply is_cont_range in C3;
    (destruct r3 as [|b4 r4]; [now apply map_Some_None in H|]);
    apply Forall_cons in Hwf3 as [Hb4 Hwf4]; cbn [length] in Hlen;
    (destruct (Utf8.is_cont b4) eqn:C4; [|now apply map_Some_None in H]);
    apply is_cont_range in C4;
    apply map_Some_cons in H as (s' & -> & H);
    cbn [Utf8.encode]; rewrite (IH r4 s' ltac:(lia) Hwf4 H);
    (replace (Utf8.encode_cp _) with (Some [b1; b2; b3; b4]); [reflexivity|]);
    symmetry; encode_back.
Qed.

Lemma decode_strict_inv (bs : bytes) (s : str) :
  Utf8.decode_strict bs = Some s -> Utf8.decode bs = List.map Some s.
Proof.
  unfold Utf8.decode_strict. generalize (Utf8.decode bs). intros l. revert s.
  induction l as [|o l IH]; intros s; cbn.
  - intros [= <-]. reflexivity.
  - destruct o as [c|]; [|discriminate].
    destruct (List.fold_right _ _ l) as [s'|]; [|discriminate].
    intros [= <-]. cbn. now rewrite (IH s' eq_refl).
Qed.

(** X11.  Octets that decode strictly as UTF-8 encode back to
    themselves: decoding then encoding, as [write_file] does with
    content that is [bytes], changes nothing. *)
Theorem encode_after_strict_decode (b : bytes) (s : str) :
  wf_bytes b ->
  Utf8.decode_strict b = Some s ->
  Utf8.encode s = Some b /\ content_bytes (VBytes b) = Some b.
Proof.
  intros Hwf H.
  assert (E : Utf8.encode s = Some b).
  { apply (encode_decode_aux (length b) b s (le_n _) Hwf).
    now apply decode_strict_inv. }
  split; [exact E|]. cbn. now rewrite H.
Qed.

Lemma encode_after_strict_decode_witness :
  wf_bytes [226; 130; 172; 33]
  /\ Utf8.decode_strict [226; 130; 172; 33] = Some [8364; 33]
  /\ Utf8.encode [8364; 33] = Some [226; 130; 172; 33].
Proof.
  assert (Hwf : wf_bytes [226; 130; 172; 33])
    by (repeat constructor; lia).
  split; [exact Hwf|]. split; [reflexivity|].
  exact (proj1 (encode_after_strict_decode _ _ Hwf eq_refl)).
Defined.

(** ** Files are closed, and what is written *)

Section Files.
Context {Net : Type} (P : Paramiko Net) (L : PyLib).
Local Open Scope gw_scope.

Lemma write_body_runs (content : Value) (f : handle) (w0 : World Net) :
  match content_bytes content with
  | Some data =>
      exists r n,
        file_write P f data (net w0) = (r, n)
        /\ write_body P content f w0
           = (r, mkWorld n (local_fs w0) (trace w0 ++ [CWrite f data])
                         (sftp_client w0))
  | None => exists e, write_body P content f w0 = (Raise e, w0)
  end.
Proof.
  assert (Hstr : forall t,
    match Utf8.encode t with
    | Some data =>
        exists r n,
          file_write P f data (net w0) = (r, n)
          /\ fwrite_str P f t w0
             = (r, mkWorld n (local_fs w0) (trace w0 ++ [CWrite f data])
                           (sftp_client w0))
    | None => exists e, fwrite_str P f t w0 = (Raise e, w0)
    end).
  { intros t. unfold fwrite_str. destruct (Utf8.encode t) as [data|].
    - unfold call. destruct (file_write P f data (net w0)) as [r n]. eauto.
    - eexists. reflexivity. }
  destruct content as [ |b0|z|t|b|l|d]; cbn [content_bytes]; unfold write_body;
    try (eexists; reflexivity).
  - apply Hstr.
  - unfold bind, lift, decode_content.
    destruct (Utf8.decode_strict b) as [t|]; [apply Hstr | eexists; reflexivity].
Qed.

(** X12.  Once [write_file] has opened the file it closes it, whatever
    happens in between.  What it hands to paramiko in between is the one
    write of the bytes of the content, when the content has any; for
    content that has none (a text that cannot be encoded, bytes that do
    not decode, a value that is neither) the file is opened for writing
    and closed with nothing written, and the method reports an error. *)
Theorem write_file_closes_what_it_opens
        (self : SFTPClient) (s f : handle) (p content : Value)
        (w : World Net) (n1 : Net) :
  sftp self = Some s ->
  sftp_open P s p ModeW (net w) = (Ok f, n1) ->
  exists r w1,
    write_file P L self p content w = (Ok r, w1)
    /\ match content_bytes content with
       | Some data =>
           trace w1 = trace w ++ [COpen s p ModeW; CWrite f data; CFileClose f]
       | None =>
           trace w1 = trace w ++ [COpen s p ModeW; CFileClose f]
           /\ is_error_report r = true
       end.
Proof.
  intros Hs Ho.
  assert (E : write_file P L self p content w
              = try_except
                  (finally (write_body P content f)
                           (call (CFileClose f) (file_close P f)) ;;;
                   ret RTrue)
                  (fun e =>
                     match exn_class e with
                     | PermissionError =>
                         ret (RStr (lit "Error: Permission denied: " ++ fmt L p))
                     | _ => ret (RStr (lit "Error: " ++ exn_text e))
                     end)
                  (mkWorld n1 (local_fs w) (trace w ++ [COpen s p ModeW])
                           (sftp_client w))).
  { unfold write_file, try_except, with_open, the_sftp, write_body, bind.
    rewrite Hs. unfold ret at 1. unfold call at 1.
    cbn [net local_fs trace sftp_client]. rewrite Ho.
    destruct content; reflexivity. }
  rewrite E. clear E.
  set (w0 := mkWorld n1 (local_fs w) (trace w ++ [COpen s p ModeW])
                     (sftp_client w)).
  pose proof (write_body_runs content f w0) as Hb.
  unfold try_except, bind, finally, call, ret.
  destruct (content_bytes content) as [data|].
  - destruct Hb as (r & n & _ & ->). subst w0.
    cbn [net local_fs trace sftp_client].
    destruct (file_close P f n) as [[[]|e'] n3];
      cbn [net local_fs trace sftp_client];
      destruct r as [[]|e]; try destruct (exn_class _);
      eexists _, _; (split; [reflexivity|]); cbn [trace];
      rewrite <- !app_assoc; reflexivity.
  - destruct Hb as (e & ->). subst w0. cbn [net local_fs trace sftp_client].
    destruct (file_close P f n1) as [[[]|e'] n3];
      cbn [net local_fs trace sftp_client];
      destruct (exn_class _);
      eexists _, _; (split; [reflexivity|]); cbn [trace];
      rewrite <- !app_assoc; (split; [reflexivity|]);
      first [ now apply error_report_intro | reflexivity ].
Qed.
End Files.

(** ** More on paths and listings *)

Lemma squeeze_length (s : str) :
  (length (squeeze_slashes s) <= length s)%nat.
Proof.
  induction s as [|c s IH]; [reflexivity|].
  rewrite squeeze_cons. destruct s as [|d s]; [reflexivity|].
  destruct ((c =? slash) && (d =? slash)); cbn [length] in *; lia.
Qed.

(** X13.  [_join_path] on a single path that holds no "//" returns it
    unchanged; applied to its own result it changes nothing; and its
    result is never longer than the parts joined with "/". *)
Theorem join_path_idempotent (parts : list str) (p : str) :
  (has_dslash p = false -> _join_path [p] = p)
  /\ _join_path [_join_path parts] = _join_path parts
  /\ (length (_join_path parts) <= length (join (lit "/") parts))%nat.
Proof.
  assert (H1 : forall q, has_dslash q = false -> _join_path [q] = q).
  { intros q Hq. unfold _join_path. cbn [join].
    rewrite collapse_loop_squeeze. now apply squeeze_no_dslash. }
  split; [apply H1|]. split.
  - apply H1. apply join_path_clean.
  - unfold _join_path. rewrite collapse_loop_squeeze. apply squeeze_length.
Qed.

Lemma join_path_idempotent_witness :
  has_dslash (lit "/srv/data/") = false
  /\ _join_path [lit "/srv/data/"] = lit "/srv/data/".
Proof.
  split; [reflexivity|].
  apply (proj1 (join_path_idempotent [] (lit "/srv/data/"))). reflexivity.
Defined.

Section ListingMore.
Context {Net : Type} (P : Paramiko Net) (L : PyLib).
Local Open Scope gw_scope.

Lemma build_items_raise (p : str) (attrs : list SFTPAttributes) (e : Exn) :
  build_items p attrs = Raise e ->
  e = TypeError (lit "'NoneType' object cannot be interpreted as an integer").
Proof.
  induction attrs as [|a attrs IH]; cbn; [discriminate|].
  destruct (st_mode a); cbn.
  - destruct (build_items p attrs); [discriminate|].
    intros [= <-]. now apply IH.
  - now intros [= <-].
Qed.

(** X14.  When paramiko returns the entries of a directory and one of
    them carries no mode, [listdir] gives no listing at all: it returns
    an "Error:" text, after the one call. *)
Theorem listdir_fails_without_mode
        (self : SFTPClient) (s : handle) (p : str) (w : World Net)
        (attrs : list SFTPAttributes) (n1 : Net) (a : SFTPAttributes) :
  sftp self = Some s ->
  sftp_listdir_attr P s (VStr p) (net w) = (Ok attrs, n1) ->
  In a attrs ->
  st_mode a = None ->
  exists m,
    listdir P L self p w
    = (Ok (RStr m),
       mkWorld n1 (local_fs w) (trace w ++ [CListdirAttr s (VStr p)])
               (sftp_client w))
    /\ startswith m (lit "Error:") = true.
Proof.
  intros Hs Ha Hin Hm.
  destruct (build_items p attrs) as [entries|e] eqn:Eb.
  - apply build_items_ok in Eb as [Hall _].
    rewrite Forall_forall in Hall.
    destruct (Hall a (proj2 (list_elem_of_In _ _) Hin)) as [m Hsome]. congruence.
  - pose proof (build_items_raise p attrs e Eb) as ->.
    eexists. split.
    + unfold listdir, try_except, the_sftp, call, lift, ret, bind.
      rewrite Hs. cbn [net local_fs trace sftp_client].
      rewrite Ha. cbn [net local_fs trace sftp_client].
      rewrite Eb. reflexivity.
    + reflexivity.
Qed.

(** X15.  In a listing that succeeds, the path of every entry is the
    listed directory joined with the entry's name by [_join_path], and
    holds no "//", whether or not the directory was given with a
    trailing slash. *)
Theorem listing_paths (self : SFTPClient) (p : str) (w : World Net)
        (items : list Item) :
  fst (listdir P L self p w) = Ok (RList items) ->
  Forall (fun i => path i = _join_path [p; name i]
                   /\ has_dslash (path i) = false) items.
Proof.
  intros H.
  apply listdir_inv in H as (s & attrs & n1 & entries & _ & _ & Hb & ->).
  apply build_items_ok in Hb as [_ ->].
  rewrite Forall_forall. intros i Hi.
  apply list_elem_of_In in Hi.
  apply (Permutation_in _ (sort_by_perm (sort_key L) key_ltb _)) in Hi.
  apply in_map_iff in Hi as (a & <- & _).
  cbn [path name entry_of]. split; [reflexivity|].
  apply join_path_clean.
Qed.
End ListingMore.

Lemma listing_paths_witness :
  fst (listdir Mem.paramiko Lib.pylib sample_client (lit "/")
               (online sample_tree))
  = Ok (RList root_listing)
  /\ Forall (fun i => path i = _join_path [lit "/"; name i]
                      /\ has_dslash (path i) = false)
            root_listing.
Proof.
  assert (H : fst (listdir Mem.paramiko Lib.pylib sample_client (lit "/")
                           (online sample_tree))
              = Ok (RList root_listing))
    by (vm_compute; reflexivity).
  split; [exact H|].
  exact (listing_paths Mem.paramiko Lib.pylib _ _ _ _ H).
Defined.

(** ** A connect that succeeds *)

Section ConnectSuccess.
Context {Net : Type} (P : Paramiko Net) (L : PyLib).
Local Open Scope gw_scope.

Lemma connect_inv_true (self self' : SFTPClient) (w w1 : World Net) :
  connect P self w = (Ok (RTrue, self'), w1) ->
  exists c s n0 n1 n2,
    ssh_new P (net w) = (c, n0)
    /\ ssh_connect P c (host self) (port self) (username self) (password self) n0
       = (Ok tt, n1)
    /\ ssh_open_sftp P c n1 = (Ok s, n2)
    /\ self' = mkClient (host self) (port self) (username self)
                        (password self) (Some c) (Some s)
    /\ w1 = mkWorld n2 (local_fs w)
                    (trace w ++ [CNew;
                                 CConnect c (host self) (port self)
                                          (username self) (password self);
                                 COpenSftp c])
                    (sftp_client w).
Proof.
  unfold connect, bind, try_except, call, ret.
  destruct (ssh_new P (net w)) as [c n0]. cbn [net trace local_fs sftp_client].
  destruct (ssh_connect P c (host self) (port self) (username self)
                        (password self) n0) as [[[]|e] n1] eqn:Ec;
    cbn [net trace local_fs sftp_client]; [|discriminate].
  destruct (ssh_open_sftp P c n1) as [[s|e] n2] eqn:Eo;
    cbn [net trace local_fs sftp_client]; [|discriminate].
  intros [= <- <-]. exists c, s, n0, n1, n2.
  rewrite <- !app_assoc. cbn. auto 10.
Qed.

Lemma close_local (c : SFTPClient) (w : World Net) r w1 :
  close P c w = (r, w1) -> local_fs w1 = local_fs w.
Proof.
  unfold close, suppress, try_except, bind, call, ret.
  destruct (sftp c) as [s|], (client c) as [h|].
  - destruct (sftp_close P s (net w)) as [[[]|e] n1];
      cbn [net local_fs trace sftp_client];
      [destruct (ssh_close P h n1) as [[[]|e] n2]|];
      intros [= _ <-]; reflexivity.
  - destruct (sftp_close P s (net w)) as [[[]|e] n1];
      intros [= _ <-]; reflexivity.
  - destruct (ssh_close P h (net w)) as [[[]|e] n1];
      intros [= _ <-]; reflexivity.
  - intros [= _ <-]. reflexivity.
Qed.

(** X16.  A connect request answered with status 200 leaves in the
    global an object that holds the credentials of the request and both
    handles, those of an SSH client that connected and of the channel
    opened on it.  A session that was active before has been closed
    first: the three calls of the new connection are the last of the
    trace and follow what [close] did. *)
Theorem connect_success_installs_session
        (req : Request) (w w1 : World Net) (m : Payload) :
  connect_route P L req w = (Ok (Jsonify 200 true m), w1) ->
  exists self c s w0,
    sftp_client w1 = Some self
    /\ client self = Some c
    /\ sftp self = Some s
    /\ match sftp_client w with
       | Some old => close P old w = (Ok tt, w0)
       | None => w0 = w
       end
    /\ trace w1 = trace w0 ++ [CNew;
                               CConnect c (host self) (port self)
                                        (username self) (password self);
                               COpenSftp c]
    /\ local_fs w1 = local_fs w.
Proof.
  intros H. unfold connect_route in H.
  apply bind_inv_ok in H as (data & wa & Ea & H).
  apply request_data_world in Ea as ->.
  apply bind_inv_ok in H as (h & wa & Ea & H).
  apply dict_get_world in Ea as ->.
  apply bind_inv_ok in H as (p & wa & Ea & H).
  apply dict_get_world in Ea as ->.
  apply bind_inv_ok in H as (u & wa & Ea & H).
  apply dict_get_world in Ea as ->.
  apply bind_inv_ok in H as (pw & wa & Ea & H).
  apply dict_get_world in Ea as ->.
  destruct (negb (truthy h) || negb (truthy u)
            || match pw with VNone => true | _ => false end);
    [discriminate H|].
  apply bind_inv_ok in H as (g & wa & Ea & H).
  injection Ea as <- <-.
  apply bind_inv_ok in H as ([] & w0 & E0 & H).
  apply bind_inv_ok in H as (self & wa & Ea & H).
  pose proof (new_client_world L _ _ _ _ _ _ _ Ea) as ->.
  apply bind_inv_ok in H as ([] & wb & Eb & H).
  injection Eb as <-.
  apply bind_inv_ok in H as ([r self'] & w2 & E2 & H).
  destruct r; unfold bind, set_global, ret in H;
    cbn [net local_fs trace sftp_client] in H; try discriminate H.
  injection H as _ <-.
  apply connect_inv_true in E2
    as (c & s & n0 & n1 & n2 & _ & _ & _ & -> & ->).
  cbn [net local_fs trace sftp_client].
  exists (mkClient (host self) (port self) (username self) (password self)
                   (Some c) (Some s)), c, s, w0.
  cbn [client sftp host port username password].
  assert (Hw0 : match sftp_client w with
                | Some old => close P old w = (Ok tt, w0)
                | None => w0 = w
                end /\ local_fs w0 = local_fs w).
  { destruct (sftp_client w) as [old|].
    - destruct (close_ok P old w) as (wc & Ec & _).
      unfold suppress, try_except in E0. rewrite Ec in E0.
      injection E0 as <-. split; [exact Ec|].
      exact (close_local old w _ _ Ec).
    - injection E0 as <-. auto. }
  destruct Hw0 as [Hc Hl]. auto 10.
Qed.
End ConnectSuccess.

(** ** The further properties on the sample server *)

Lemma missing_path_refused_witness :
  sftp_client (online sample_tree) = Some sample_client
  /\ api_stat Mem.paramiko (get_request [(lit "path", [])]) (online sample_tree)
     = (Ok missing_path, online sample_tree)
  /\ api_remove Mem.paramiko Lib.pylib (json_request [(lit "path", VStr [])])
                (online sample_tree)
     = (Ok missing_path, online sample_tree)
  /\ api_rename Mem.paramiko Lib.pylib
                (json_request [(lit "old", VStr (lit "/bin"))])
                (online sample_tree)
     = (Ok (Jsonify 400 false (Message (RStr (lit "Missing old or new path")))),
        online sample_tree).
Proof.
  split; [reflexivity|]. split; [|split].
  - apply (proj1 (missing_path_refused Mem.paramiko Lib.pylib
                    (get_request [(lit "path", [])]) sample_client
                    (online sample_tree) eq_refl)).
    right. reflexivity.
  - apply (proj1 (proj2 (missing_path_refused Mem.paramiko Lib.pylib
                           (json_request [(lit "path", VStr [])]) sample_client
                           (online sample_tree) eq_refl))
                 [(lit "path", VStr [])]); reflexivity.
  - apply (proj2 (proj2 (missing_path_refused Mem.paramiko Lib.pylib
                           (json_request [(lit "old", VStr (lit "/bin"))])
                           sample_client (online sample_tree) eq_refl))
                 [(lit "old", VStr (lit "/bin"))]); reflexivity.
Defined.

Lemma upload_stages_and_cleans_witness :
  upload_target Lib.pylib upload_request
                (mkUpload (lit "notes.txt") (lit "remember"))
  = lit "/bin/notes.txt"
  /\ exists w1,
      api_upload Mem.paramiko Lib.pylib upload_request (online sample_tree)
      = (Ok (Jsonify 200 true NoPayload), w1)
      /\ local_fs w1 = ∅
      /\ trace w1 = [CPut 1%nat (lit "/tmp/tmp") (lit "/bin/notes.txt")].
Proof.
  split; [reflexivity|].
  destruct (upload_stages_and_cleans Mem.paramiko Lib.pylib upload_request
              (mkUpload (lit "notes.txt") (lit "remember")) sample_client
              1%nat (online sample_tree) _ _
              eq_refl eq_refl eq_refl eq_refl eq_refl
              (surjective_pairing _))
    as (resp & E & R).
  vm_compute in R. subst resp.
  eexists. split; [exact E|]. split; reflexivity.
Defined.

Lemma download_sends_and_cleans_witness :
  S_ISDIR mode_file = false
  /\ fst (api_download Mem.paramiko Lib.pylib
            (get_request [(lit "path", lit "/bin/ls")]) (online sample_tree))
     = Ok (SendFile (lit "ls") [127; 69; 76; 70]).
Proof.
  split; [reflexivity|].
  rewrite (download_sends_and_cleans Mem.paramiko Lib.pylib
             (get_request [(lit "path", lit "/bin/ls")]) (lit "/bin/ls")
             sample_client 1%nat (online sample_tree)
             (Mem.attr_of (lit "/bin/ls") (Mem.File [127; 69; 76; 70]))
             mode_file (sample_server sample_tree) (sample_server sample_tree)
             (<[lit "/tmp/tmp" := [127; 69; 76; 70]]>
                (<[lit "/tmp/tmp" := []]> ∅))
             [127; 69; 76; 70]
             eq_refl eq_refl eq_refl eq_refl eq_refl eq_refl eq_refl eq_refl
             eq_refl eq_refl).
  reflexivity.
Defined.

Lemma download_never_leaves_staging_file_witness :
  local_fs (online sample_tree) !! lit "/tmp/tmp" = None
  /\ local_fs (snd (api_download Mem.paramiko Lib.pylib
                      (get_request [(lit "path", lit "/missing")])
                      (online sample_tree))) !! lit "/tmp/tmp" = None.
Proof.
  split; [reflexivity|].
  exact (download_never_leaves_staging_file Mem.paramiko Lib.pylib
           (get_request [(lit "path", lit "/missing")]) (lit "/missing")
           sample_client (online sample_tree)
           eq_refl eq_refl eq_refl eq_refl).
Defined.

Lemma write_file_closes_what_it_opens_witness :
  sftp sample_client = Some 1%nat
  /\ exists r w1,
      write_file Mem.paramiko Lib.pylib sample_client (VStr (lit "/readme.txt"))
                 (VInt 5) (online sample_tree) = (Ok r, w1)
      /\ trace w1 = [COpen 1%nat (VStr (lit "/readme.txt")) ModeW;
                     CFileClose 2%nat]
      /\ is_error_report r = true.
Proof.
  split; [reflexivity|].
  destruct (write_file_closes_what_it_opens Mem.paramiko Lib.pylib
              sample_client 1%nat 2%nat (VStr (lit "/readme.txt")) (VInt 5)
              (online sample_tree) _ eq_refl eq_refl)
    as (r & w1 & E & T & R).
  exists r, w1. split; [exact E|]. split; [exact T | exact R].
Defined.

Lemma listdir_fails_without_mode_witness :
  exists m,
    fst (listdir bare_paramiko Lib.pylib sample_client (lit "/bin")
                 (online sample_tree)) = Ok (RStr m)
    /\ startswith m (lit "Error:") = true.
Proof.
  destruct (listdir_fails_without_mode bare_paramiko Lib.pylib sample_client
              1%nat (lit "/bin") (online sample_tree)
              [mkAttr (lit "ls") None (Some 4) (Some 0)]
              (sample_server sample_tree)
              (mkAttr (lit "ls") None (Some 4) (Some 0))
              eq_refl eq_refl (or_introl eq_refl) eq_refl)
    as (m & E & S).
  exists m. rewrite E. split; [reflexivity | exact S].
Defined.

Lemma connect_success_installs_session_witness :
  fst (connect_route Mem.paramiko Lib.pylib connect_request
                     (online sample_tree))
  = Ok (Jsonify 200 true (Message (RStr (lit "Connected successfully"))))
  /\ exists self c s,
      sftp_client (snd (connect_route Mem.paramiko Lib.pylib connect_request
                                      (online sample_tree))) = Some self
      /\ client self = Some c
      /\ sftp self = Some s.
Proof.
  assert (H : connect_route Mem.paramiko Lib.pylib connect_request
                            (online sample_tree)
              = (Ok (Jsonify 200 true
                       (Message (RStr (lit "Connected successfully")))),
                 snd (connect_route Mem.paramiko Lib.pylib connect_request
                                    (online sample_tree))))
    by (vm_compute; reflexivity).
  split; [rewrite H; reflexivity|].
  destruct (connect_success_installs_session Mem.paramiko Lib.pylib _ _ _ _ H)
    as (self & c & s & w0 & G & Hc & Hs & _).
  exists self, c, s. auto.
Defined.

(** ** Reading *)

Section Reading.
Context {Net : Type} (P : Paramiko Net) (L : PyLib).
Local Open Scope gw_scope.

(** X17.  Once [read_file] has opened the file it reads once, with the
    cap it was given, and closes the file whatever the read did.  It
    returns the decoded bytes only when both the read and the close
    went through; when the close raises after a read that succeeded,
    the content is dropped and an "Error:" text returned. *)
Theorem read_file_closes_what_it_opens
        (self : SFTPClient) (s f : handle) (p : str) (cap : option Z)
        (w : World Net) (n1 : Net) :
  sftp self = Some s ->
  sftp_open P s (VStr p) ModeRB (net w) = (Ok f, n1) ->
  exists r w1 rr n2 rc n3,
    file_read P f cap n1 = (rr, n2)
    /\ file_close P f n2 = (rc, n3)
    /\ read_file P self p cap w = (Ok (RStr r), w1)
    /\ trace w1 = trace w ++ [COpen s (VStr p) ModeRB; CRead f cap; CFileClose f]
    /\ match rr, rc with
       | Ok data, Ok _ => r = Utf8.decode_replace data
       | _, _ => startswith r (lit "Error:") = true
       end.
Proof.
  intros Hs Ho.
  unfold read_file, try_except, with_open, the_sftp, finally, call, ret, bind.
  rewrite Hs. cbn [net local_fs trace sftp_client].
  rewrite Ho. cbn [net local_fs trace sftp_client].
  destruct (file_read P f cap n1) as [[data|e] n2] eqn:Er;
    cbn [net local_fs trace sftp_client];
    destruct (file_close P f n2) as [[[]|e'] n3] eqn:Ec;
    cbn [net local_fs trace sftp_client];
    try destruct (exn_class _);
    eexists _, _, _, _, _, _;
    (split; [reflexivity|]); (split; [exact Ec|]);
    (split; [reflexivity|]); cbn [trace]; rewrite <- !app_assoc;
    (split; [reflexivity|]);
    first [ reflexivity | now apply error_report_intro ].
Qed.

(** X18.  The read route in a session, on a request with a path and a
    cap that [int] accepts (or none), for a file that opens, reads and
    closes: the cap is handed to the read as it is, the bytes that come
    back are decoded after the cut, and unless the text starts with
    "Error:" it is the content of a 200 answer. *)
Theorem api_read_content
        (req : Request) (p : str) (cap : option Z) (c : SFTPClient)
        (s f : handle) (w : World Net) (n1 n2 n3 : Net) (data : bytes) :
  sftp_client w = Some c ->
  sftp c = Some s ->
  arg req "path" = Some p ->
  truthy_str p = true ->
  read_cap L req = Ok cap ->
  sftp_open P s (VStr p) ModeRB (net w) = (Ok f, n1) ->
  file_read P f cap n1 = (Ok data, n2) ->
  file_close P f n2 = (Ok tt, n3) ->
  startswith (Utf8.decode_replace data) (lit "Error:") = false ->
  api_read P L req w
  = (Ok (Jsonify 200 true (Content (Utf8.decode_replace data))),
     mkWorld n3 (local_fs w)
             (trace w ++ [COpen s (VStr p) ModeRB; CRead f cap; CFileClose f])
             (sftp_client w)).
Proof.
  intros Hg Hs Hp Ht Hcap Ho Hr Hc Hpre.
  unfold api_read, bind at 1, get_global at 1. rewrite Hg, Hp, Ht.
  assert (Ecap : (match arg req "max" with
                  | Some m =>
                      if truthy_str m
                      then n <- lift (int_ L (VStr m)) ;; ret (Some n)
                      else ret None
                  | None => ret None
                  end) w = (Ok cap, w)).
  { unfold read_cap in Hcap. unfold bind, lift, ret.
    destruct (arg req "max") as [m|]; [|now injection Hcap as <-].
    destruct (truthy_str m); [|now injection Hcap as <-].
    destruct (int_ L (VStr m)); [now injection Hcap as <-|discriminate]. }
  rewrite (bind_ok _ _ _ _ _ Ecap).
  rewrite (bind_ok _ _ _ _ _ (read_file_run P c p cap w s f n1 data n2 n3
                                            Hs Ho Hr Hc)).
  rewrite Hpre, Hg. reflexivity.
Qed.
End Reading.

Lemma read_file_closes_what_it_opens_witness :
  sftp sample_client = Some 1%nat
  /\ read_file Mem.paramiko sample_client (lit "/readme.txt") (Some 4)
               (online sample_tree)
     = (Ok (RStr (lit "hell")),
        snd (read_file Mem.paramiko sample_client (lit "/readme.txt") (Some 4)
                       (online sample_tree)))
  /\ trace (snd (read_file Mem.paramiko sample_client (lit "/readme.txt")
                           (Some 4) (online sample_tree)))
     = [COpen 1%nat (VStr (lit "/readme.txt")) ModeRB; CRead 2%nat (Some 4);
        CFileClose 2%nat].
Proof.
  split; [reflexivity|].
  destruct (read_file_closes_what_it_opens Mem.paramiko sample_client 1%nat
              2%nat (lit "/readme.txt") (Some 4) (online sample_tree) _
              eq_refl eq_refl)
    as (r & w1 & rr & n2 & rc & n3 & Er & Ec & E & T & R).
  vm_compute in Er. injection Er as <- <-.
  vm_compute in Ec. injection Ec as <- <-.
  rewrite R in E. rewrite E. split; [reflexivity | exact T].
Defined.

Lemma api_read_content_witness :
  read_cap Lib.pylib (get_request [(lit "path", lit "/readme.txt");
                                   (lit "max", lit "4")]) = Ok (Some 4)
  /\ fst (api_read Mem.paramiko Lib.pylib
            (get_request [(lit "path", lit "/readme.txt"); (lit "max", lit "4")])
            (online sample_tree))
     = Ok (Jsonify 200 true (Content (lit "hell"))).
Proof.
  split; [reflexivity|].
  rewrite (api_read_content Mem.paramiko Lib.pylib
             (get_request [(lit "path", lit "/readme.txt"); (lit "max", lit "4")])
             (lit "/readme.txt") (Some 4) sample_client 1%nat 2%nat
             (online sample_tree)
             (Mem.mkState sample_tree [(2%nat, lit "/readme.txt")] 3%nat
                          (Mem.accounts (sample_server [])))
             (Mem.mkState sample_tree [(2%nat, lit "/readme.txt")] 3%nat
                          (Mem.accounts (sample_server [])))
             (Mem.mkState sample_tree [] 3%nat
                          (Mem.accounts (sample_server [])))
             (lit "hell")
             eq_refl eq_refl eq_refl eq_refl eq_refl eq_refl eq_refl eq_refl
             eq_refl).
  reflexivity.
Defined.

Lemma json_routes_always_answer_witness :
  body_fields (json_request [(lit "path", VStr (lit "/bin"))])
  = Some [(lit "path", VStr (lit "/bin"))]
  /\ exists resp w1,
      api_mkdir Mem.paramiko Lib.pylib
                (json_request [(lit "path", VStr (lit "/bin"))])
                (online sample_tree) = (Ok resp, w1)
      /\ json_answer resp.
Proof.
  split; [reflexivity|].
  exact (proj1 (proj2 (proj2 (proj2 (json_routes_always_answer
                                       Mem.paramiko Lib.pylib
                                       (json_request [(lit "path", VStr (lit "/bin"))])
                                       (online sample_tree)))
                             [(lit "path", VStr (lit "/bin"))] eq_refl))).
Defined.
